(** * FreeDiffusionToolkit: Siemens diffusion vector files

    A shallow embedding of [freediffusiontoolkit/siemens_tools.py], the two
    classes [BasicSiemensTool] (current firmware) and [LegacySiemensTool],
    with the Python primitives they rely on: [str] of an integer,
    [str.startswith], [str.replace], [pathlib.Path.name], [dict.get] and the
    format specification [" .<d>f"] of numbers.  The earlier draft
    [simens_tool.py] is embedded as far as it runs.

    Contents: the Python primitives; the tool object and the two classes;
    the vocabulary of the properties; the properties. *)

From Stdlib Require Import ZArith Lia Bool Ascii.
From Stdlib Require Import Numbers.DecimalString Numbers.DecimalPos.
From Stdlib Require Numbers.DecimalZ.
From Stdlib Require Import Floats.SpecFloat.
From stdpp Require Import gmap strings list fin_maps.

Local Open Scope Z_scope.

#[local] Arguments String.append : simpl nomatch.

(** * Python primitives *)

(** ** Exceptions and results *)

Inductive exn : Type :=
  | IndexError
  | ValueError
  | OverflowError
  | AttributeError
  | NameError
  | OSError.

Inductive result (A : Type) : Type :=
  | Ok (a : A)
  | Raise (e : exn).

Arguments Ok {A} a.
Arguments Raise {A} e.

(** Sequencing: an exception raised by the first computation skips the
    rest.  The notation [x ← r; k] is stdpp's. *)
#[global] Instance result_ret : MRet result := fun A a => Ok a.
#[global] Instance result_bind : MBind result := fun A B k r =>
  match r with
  | Ok a => k a
  | Raise e => Raise e
  end.

(** ** Strings *)

Module PyStr.

(** The two line terminators, ["\n"] and ["\r\n"]. *)
Definition LF : string := String (ascii_of_nat 10) EmptyString.
Definition CRLF : string := String (ascii_of_nat 13) LF.

(** [str(n)] and [f"{n}"] for a Python [int]. *)
Definition str_int (n : Z) : string :=
  NilEmpty.string_of_int (Z.to_int n).

(** [s.startswith(p)]. *)
Definition startswith (s p : string) : bool := String.prefix p s.

(** [sub in s]. *)
Fixpoint contains (sub s : string) : bool :=
  String.prefix sub s ||
  match s with
  | EmptyString => false
  | String _ s' => contains sub s'
  end.

(** [s.replace(old, new)]: every non-overlapping occurrence of [old],
    scanning from the left.  [skip] counts the characters of the occurrence
    just replaced that are still to be dropped. *)
Fixpoint replace_from (old new : string) (skip : nat) (s : string) : string :=
  match s with
  | EmptyString => EmptyString
  | String c s' =>
      match skip with
      | S k => replace_from old new k s'
      | O =>
          if String.prefix old s
          then new +:+ replace_from old new (String.length old - 1) s'
          else String c (replace_from old new 0 s')
      end
  end.

(** With an empty [old], Python puts [new] before every character and at
    the end. *)
Fixpoint intersperse (new s : string) : string :=
  match s with
  | EmptyString => new
  | String c s' => new +:+ String c (intersperse new s')
  end.

Definition replace (s old new : string) : string :=
  match old with
  | EmptyString => intersperse new s
  | String _ _ => replace_from old new 0 s
  end.

(** [sep.join(l)]. *)
Fixpoint join (sep : string) (l : list string) : string :=
  match l with
  | [] => EmptyString
  | [x] => x
  | x :: l' => x +:+ sep +:+ join sep l'
  end.

(** The truth value of a [str]: non-empty. *)
Definition truthy (s : string) : bool :=
  match s with
  | EmptyString => false
  | String _ _ => true
  end.

End PyStr.

(** ** Paths

    [pathlib.Path(s).name], POSIX flavour: the text is cut at every slash,
    empty components and single-dot components are dropped, and the name is
    the last component left, the empty string when there is none.  (The
    Windows flavour also cuts at backslashes and sets a drive apart; the two
    agree on the names used below.) *)

Module PyPath.

Fixpoint components (s cur : string) : list string :=
  match s with
  | EmptyString => [cur]
  | String c s' =>
      if Ascii.eqb c "/"%char then cur :: components s' EmptyString
      else components s' (cur +:+ String c EmptyString)
  end.

Definition kept (c : string) : bool :=
  negb (String.eqb c EmptyString) && negb (String.eqb c ".").

Definition name (s : string) : string :=
  List.last (List.filter kept (components s EmptyString)) EmptyString.

End PyPath.

(** ** Numbers and the fixed-point format

    A vector component is a Python [int] or a binary64 [float] (a numpy
    [float64] formats as one).  [format_f x d] is [format(x, f" .{d}f")]:
    the sign position holds a space or a minus sign, and the absolute value
    is rounded to [d] decimals, a tie of the exact binary value going to the
    even digit.  Floats are [spec_float]: sign, mantissa and binary exponent,
    the two infinities and NaN. *)

Module PyNum.

Inductive number : Type :=
  | PyInt (z : Z)
  | PyFloat (f : spec_float).

Definition prec : Z := 53.
Definition emax : Z := 1024.

(** [float(z)] for an [int]: the nearest binary64, ties to even;
    [OverflowError] when that is not finite. *)
Definition float_of_int (z : Z) : result spec_float :=
  match binary_normalize prec emax z 0 false with
  | S754_infinity _ => Raise OverflowError
  | f => Ok f
  end.

Definition as_float (x : number) : result spec_float :=
  match x with
  | PyInt z => float_of_int z
  | PyFloat f => Ok f
  end.

(** The float a decimal literal denotes, the literal given as the fraction
    [num / den] with [den] a power of ten: the correctly rounded quotient. *)
Definition float_lit (num den : Z) : spec_float :=
  SFdiv prec emax (binary_normalize prec emax num 0 false)
                  (binary_normalize prec emax den 0 false).

(** The integer nearest to [num / den] for [0 <= num] and [0 < den], ties to
    even. *)
Definition round_half_even (num den : Z) : Z :=
  let q := num / den in
  match 2 * (num mod den) ?= den with
  | Lt => q
  | Eq => if Z.even q then q else q + 1
  | Gt => q + 1
  end.

(** The integer nearest to [m * 2^e * 10^d]. *)
Definition scaled (m : positive) (e : Z) (d : nat) : Z :=
  if 0 <=? e
  then Z.pos m * 2 ^ e * 10 ^ Z.of_nat d
  else round_half_even (Z.pos m * 10 ^ Z.of_nat d) (2 ^ (- e)).

Definition digit (n : Z) : ascii :=
  ascii_of_nat (48 + Z.to_nat (n mod 10)).

(** The last [d] decimal digits of [n], zero padded. *)
Fixpoint frac_digits (d : nat) (n : Z) : string :=
  match d with
  | O => EmptyString
  | S d' => frac_digits d' (n / 10) +:+ String (digit n) EmptyString
  end.

Definition sign_char (s : bool) : ascii :=
  if s then "-"%char else " "%char.

(** [q] is the absolute value in units of [10^-d]. *)
Definition fixed_point (s : bool) (q : Z) (d : nat) : string :=
  String (sign_char s)
    (PyStr.str_int (q / 10 ^ Z.of_nat d) +:+
     match d with
     | O => EmptyString
     | S _ => String "."%char (frac_digits d q)
     end).

Definition format_float (f : spec_float) (d : nat) : string :=
  match f with
  | S754_zero s => fixed_point s 0 d
  | S754_finite s m e => fixed_point s (scaled m e d) d
  | S754_infinity s => String (sign_char s) "inf"
  | S754_nan => " nan"
  end.

(** The bounds of the format specification on a 64-bit interpreter: the
    largest number it reads ([PY_SSIZE_T_MAX]) and the largest precision the
    float formatter takes ([INT_MAX]). *)
Definition ssize_max : Z := 9223372036854775807.
Definition int_max : Z := 2147483647.

(** [format(x, f" .{decimals}f")].  The specification is read first: a
    negative [decimals] gives a text such as [" .-1f"], which has no
    precision, and a number above [ssize_max] has too many digits; both are
    a [ValueError], raised before the value is looked at.  Then an int is
    converted to a float, and then a precision above [int_max] is refused,
    again with [ValueError]. *)
Definition format_f (x : number) (decimals : Z) : result string :=
  if (decimals <? 0) || (ssize_max <? decimals) then Raise ValueError
  else
    f ← as_float x;
    if int_max <? decimals then Raise ValueError
    else Ok (format_float f (Z.to_nat decimals)).

Definition sign_bit (f : spec_float) : bool :=
  match f with
  | S754_zero s | S754_infinity s | S754_finite s _ _ => s
  | S754_nan => false
  end.

Definition is_finite (f : spec_float) : bool :=
  match f with
  | S754_zero _ | S754_finite _ _ _ => true
  | _ => false
  end.

End PyNum.

(** ** Sequences, file names and dictionaries *)

(** [b_values] is a Python list or tuple of integers; [len] and [str] are
    the built-ins. *)
Inductive pyseq : Type :=
  | PyList (items : list Z)
  | PyTuple (items : list Z).

Definition seq_items (b : pyseq) : list Z :=
  match b with
  | PyList l | PyTuple l => l
  end.

Definition len (b : pyseq) : Z := Z.of_nat (length (seq_items b)).

Definition str_seq (b : pyseq) : string :=
  match b with
  | PyList l => "[" +:+ PyStr.join ", " (map PyStr.str_int l) +:+ "]"
  | PyTuple [x] => "(" +:+ PyStr.str_int x +:+ ",)"
  | PyTuple l => "(" +:+ PyStr.join ", " (map PyStr.str_int l) +:+ ")"
  end.

(** A [filename] argument: [None], a [str], or a [pathlib.Path] given by the
    text it was built from. *)
Inductive pyfile : Type :=
  | FNone
  | FStr (s : string)
  | FPath (s : string).

(** The platform a tool runs on, as far as writing a file depends on it:
    the line separator [os.linesep], and what opening the path built from a
    text does when it is opened for writing.  [Ok] stands for an open, empty
    file; otherwise [open] raises, an [OSError] for a missing folder, a
    directory or a refused permission, a [ValueError] for a text with a null
    character, and nothing is written. *)
Record platform : Type := Platform {
  linesep : string;
  open_w : string -> result unit
}.

(** [d.get(key, dflt)]. *)
Definition dict_get (d : gmap string string) (key dflt : string) : string :=
  default dflt (d !! key).

(** * The tool object and the two classes *)

(** [self]: the attributes the parent class keeps.  [options] is the
    per-instance dictionary of header options. *)
Record tool : Type := Tool {
  b_values : pyseq;
  n_dims : Z;
  options : gmap string string
}.

(** Modelled from the spec: [FreeDiffusionTool.__init__] of
    [free_diffusion_tools.py], the parent class, whose text is missing.  The
    spec describes the options as a keyed per-instance bag fixed at
    construction time: the keyword arguments become that bag. *)
Definition FreeDiffusionTool_init (b : pyseq) (n : Z)
    (kwargs : gmap string string) : tool :=
  {| b_values := b; n_dims := n; options := kwargs |}.

Module BasicSiemensTool.

Definition init (b : pyseq) (n : Z) (kwargs : gmap string string) : tool :=
  FreeDiffusionTool_init b n kwargs.

Definition separator : string :=
  "# -----------------------------------------------------------------------------".

(** The defaults of the parameters of [construct_header],
    [vector_to_string] and [save]. *)
Definition default_n_dims : Z := 3.
Definition default_b_values : pyseq := PyTuple [0; 1000].
Definition default_decimals : Z := 6.
Definition default_filename : pyfile := FStr EmptyString.

(** [construct_header].  [current_time] stands for
    [datetime.now().strftime("%a %b %d %H:%M:%S %Y")].  The two directory
    texts are raw literals in the source, so every backslash written there
    is a character of the text. *)
Definition construct_header (self : tool) (current_time : string)
    (filename : pyfile) (n_dims : Z) (b_values : pyseq) : list string :=
  let n_directions := len b_values * n_dims in
  let head := [] in
  let head := head ++ [separator] in
  let filename :=
    match filename with
    | FNone => "MyVectorSet.dvs"
    | FStr s | FPath s => PyPath.name s
    end in
  let default_path :=
    dict_get (options self) "default_path"
      "C:\\Medcom\\MriCustomer\\seq\\DiffusionVectorSets\\" in
  let head := head ++ ["# File: " +:+ default_path +:+ filename] in
  let head := head ++ ["# Date: " +:+ current_time] in
  let description :=
    dict_get (options self) "description"
      "Vector file for Siemens 'free' diffusion mode." in
  let head := head ++ ["# Description: " +:+ description] in
  let head := head ++ ["b-values: " +:+ str_seq b_values] in
  let head := head ++ ["number dimensions: " +:+ PyStr.str_int n_dims] in
  let head :=
    match options self !! "Comment" with
    | Some comment =>
        if PyStr.truthy comment then head ++ ["Comment: " +:+ comment]
        else head
    | None => head
    end in
  let head := head ++ [separator] in
  let head := head ++ ["[directions=" +:+ PyStr.str_int n_directions +:+ "]"] in
  let coordinate_system := dict_get (options self) "CoordinateSystem" "xyz" in
  let head := head ++ ["CoordinateSystem = " +:+ coordinate_system] in
  let normalisation := dict_get (options self) "Normalisation" "none" in
  let head := head ++ ["Normalisation = " +:+ normalisation] in
  head.

(** [vector[i]] for a literal index. *)
Definition getitem (vector : list PyNum.number) (i : nat) : result PyNum.number :=
  match vector !! i with
  | Some x => Ok x
  | None => Raise IndexError
  end.

(** [vector_to_string].  The fields of the formatted literal are evaluated
    and formatted from left to right, so the first failing lookup or format
    decides the exception. *)
Definition vector_to_string (index : Z) (vector : list PyNum.number)
    (decimals : Z) : result string :=
  let idx := PyStr.str_int index in
  v0 ← getitem vector 0;
  s0 ← PyNum.format_f v0 decimals;
  v1 ← getitem vector 1;
  s1 ← PyNum.format_f v1 decimals;
  v2 ← getitem vector 2;
  s2 ← PyNum.format_f v2 decimals;
  Ok ("Vector[" +:+ idx +:+ "] = (" +:+ s0 +:+ "," +:+ s1 +:+ "," +:+ s2 +:+ ")").

(** [file.write(s)] on a file opened in text mode with the default
    [newline]: the characters of [s] are stored with every line feed
    replaced by [sep], the line separator of the platform ([os.linesep]: a
    line feed on POSIX, carriage return and line feed on Windows).  The file
    is the text stored so far. *)
Definition file_write (sep : string) (file s : string) : string :=
  file +:+ PyStr.replace s PyStr.LF sep.

(** [write].  The file is opened in text mode and threaded through the two
    loops; [file.write] is called once per line, with the line and the
    terminator together.  A [filename] that is no [Path] has no [open], and
    a path that cannot be opened raises the exception of [open]: in both
    cases nothing is written.  When a row is rejected the exception leaves
    the [with] block and what was written so far stays in the file.  (A
    device that fails while the lines are written is outside the model.) *)
Definition newline (self : tool) : string :=
  dict_get (options self) "newline" PyStr.LF.

Fixpoint write_header (sep : string) (self : tool) (header : list string)
    (file : string) : string :=
  match header with
  | [] => file
  | line :: rest =>
      write_header sep self rest (file_write sep file (line +:+ newline self))
  end.

Fixpoint write_rows (sep : string) (self : tool) (row_idx : Z)
    (rows : list (list PyNum.number)) (file : string)
    : string * result unit :=
  match rows with
  | [] => (file, Ok tt)
  | row :: rest =>
      match vector_to_string row_idx row default_decimals with
      | Ok s =>
          write_rows sep self (row_idx + 1) rest
            (file_write sep file (s +:+ newline self))
      | Raise e => (file, Raise e)
      end
  end.

Definition write (os : platform) (self : tool) (filename : pyfile)
    (header : list string) (diffusion_vectors : list (list PyNum.number))
    : option string * result unit :=
  match filename with
  | FPath p =>
      match open_w os p with
      | Ok _ =>
          let file := EmptyString in
          let file := write_header (linesep os) self header file in
          let '(file, r) :=
            write_rows (linesep os) self 0 diffusion_vectors file in
          (Some file, r)
      | Raise e => (None, Raise e)
      end
  | _ => (None, Raise AttributeError)
  end.

(** [save].  [diffusion_vectors] is what [self.get_diffusion_vectors()] of
    the parent class returns.  [construct_header] gets the file name only,
    so its [n_dims] and [b_values] are the defaults. *)
Definition save (os : platform) (self : tool) (current_time : string)
    (diffusion_vectors : list (list PyNum.number)) (filename : pyfile)
    : option string * result unit :=
  let header :=
    construct_header self current_time filename default_n_dims default_b_values in
  write os self filename header diffusion_vectors.

End BasicSiemensTool.

Module LegacySiemensTool.

Definition default_filename : pyfile := FPath "DiffusionVectors.txt".

(** [__init__]: the parent's constructor, then the two options are set,
    over whatever the keyword arguments gave. *)
Definition set_options (self : tool) : tool :=
  let self :=
    Tool (b_values self) (n_dims self)
         (<["newline" := PyStr.CRLF]> (options self)) in
  Tool (b_values self) (n_dims self)
       (<["default_path" := "C:\\Medcom\\MriCustomer\\seq\\"]> (options self)).

Definition init (b : pyseq) (n : Z) (kwargs : gmap string string) : tool :=
  set_options (BasicSiemensTool.init b n kwargs).

(** The loop of [save] over the header: a line that starts with the marker
    prefix is replaced, in place, by the line without the prefix. *)
Definition strip_directions (header : list string) : list string :=
  map (fun head =>
         if PyStr.startswith head "[directions="
         then PyStr.replace head "[directions=" EmptyString
         else head) header.

(** [save]; the keyword options it accepts are not read by its body. *)
Definition save (os : platform) (self : tool) (current_time : string)
    (diffusion_vectors : list (list PyNum.number)) (filename : pyfile)
    : option string * result unit :=
  let header :=
    BasicSiemensTool.construct_header self current_time filename
      BasicSiemensTool.default_n_dims BasicSiemensTool.default_b_values in
  let header := strip_directions header in
  BasicSiemensTool.write os self filename header diffusion_vectors.

End LegacySiemensTool.

(** ** The earlier draft, [simens_tool.py]

    Its [vector_to_string] is, word for word, the one above.  Its
    [construct_header] takes the file name from the option ["filename"],
    builds the first two lines and then reads [datetime], a name the module
    neither imports nor defines: the call ends there with [NameError], for
    every tool and every argument.  (The lines behind it read [b_values] and
    [n_dims], which are no names of the function either, and have no
    dimension line.) *)

Module SimensToolDraft.

Definition vector_to_string := BasicSiemensTool.vector_to_string.

Definition construct_header (self : tool) (filename : pyfile)
    : result (list string) :=
  let head := [] in
  let head := head ++ [BasicSiemensTool.separator] in
  let filename := dict_get (options self) "filename" "MyVectorSet.dvs" in
  let default_path :=
    dict_get (options self) "default_path"
      "C:\\Medcom\\MriCustomer\\seq\\DiffusionVectorSets\\" in
  let head := head ++ ["# File: " +:+ default_path +:+ filename] in
  _ ← @Raise unit NameError;
  Ok head.

(** [write] of the draft: the loop over the header is the one above; the
    loop over the rows calls [vector_to_string] by its bare name, which is a
    name of the class and not of the module, so its first round ends with
    [NameError]. *)
Definition write (os : platform) (self : tool) (filename : pyfile)
    (header : list string) (diffusion_vectors : list (list PyNum.number))
    : option string * result unit :=
  match filename with
  | FPath p =>
      match open_w os p with
      | Ok _ =>
          let file := EmptyString in
          let file :=
            BasicSiemensTool.write_header (linesep os) self header file in
          match diffusion_vectors with
          | [] => (Some file, Ok tt)
          | _ :: _ => (Some file, Raise NameError)
          end
      | Raise e => (None, Raise e)
      end
  | _ => (None, Raise AttributeError)
  end.

(** [save] of the draft, of either class: [construct_header] is called by
    its bare name too, before anything else is done. *)
Definition save (self : tool) (diffusion_vectors : list (list PyNum.number))
    (filename : pyfile) : option string * result unit :=
  (None, Raise NameError).

End SimensToolDraft.

(** * Vocabulary of the properties *)

(** ** Characters of a text *)

Fixpoint all_chars (P : ascii -> bool) (s : string) : bool :=
  match s with
  | EmptyString => true
  | String c s' => P c && all_chars P s'
  end.

Definition is_digit (c : ascii) : bool :=
  (48 <=? Z.of_nat (nat_of_ascii c)) && (Z.of_nat (nat_of_ascii c) <=? 57).

Definition digits_only (s : string) : bool := all_chars is_digit s.

Definition not_bracket (c : ascii) : bool := negb (Ascii.eqb c "["%char).

Definition sign_or_digit (c : ascii) : bool :=
  is_digit c || Ascii.eqb c "-"%char.

(** ** Lines of the header *)

(** The directory of the file-path line: the option ["default_path"] when
    the options have it, the built-in text otherwise. *)
Definition directory (self : tool) : string :=
  dict_get (options self) "default_path"
    "C:\\Medcom\\MriCustomer\\seq\\DiffusionVectorSets\\".

Definition file_name (filename : pyfile) : string :=
  match filename with
  | FNone => "MyVectorSet.dvs"
  | FStr s | FPath s => PyPath.name s
  end.

Definition comment_lines (self : tool) : list string :=
  match options self !! "Comment" with
  | Some comment => if PyStr.truthy comment then ["Comment: " +:+ comment] else []
  | None => []
  end.

(** The lines before and after the direction marker. *)
Definition header_top (self : tool) (current_time : string)
    (filename : pyfile) (n_dims : Z) (b_values : pyseq) : list string :=
  [ BasicSiemensTool.separator;
    "# File: " +:+ directory self +:+ file_name filename;
    "# Date: " +:+ current_time;
    "# Description: " +:+
      dict_get (options self) "description"
        "Vector file for Siemens 'free' diffusion mode.";
    "b-values: " +:+ str_seq b_values;
    "number dimensions: " +:+ PyStr.str_int n_dims ]
  ++ comment_lines self ++ [BasicSiemensTool.separator].

Definition header_bottom (self : tool) : list string :=
  [ "CoordinateSystem = " +:+ dict_get (options self) "CoordinateSystem" "xyz";
    "Normalisation = " +:+ dict_get (options self) "Normalisation" "none" ].

Definition marker (n : Z) : string :=
  "[directions=" +:+ PyStr.str_int n +:+ "]".

Definition is_marker (line : string) : bool :=
  PyStr.startswith line "[directions=".

(** ** The written file *)

Definition is_path (filename : pyfile) : bool :=
  match filename with
  | FPath _ => true
  | _ => false
  end.

(** A file name that is a path the platform opens for writing. *)
Definition opens (os : platform) (filename : pyfile) : bool :=
  match filename with
  | FPath p =>
      match open_w os p with
      | Ok _ => true
      | Raise _ => false
      end
  | _ => false
  end.

(** The platform with the line separator [sep] on which every path can be
    opened. *)
Definition platform_of (sep : string) : platform :=
  Platform sep (fun _ => Ok tt).

(** What the file holds of a text handed to [file.write]: the text with
    its line feeds replaced by the line separator of the platform. *)
Definition stored (sep text : string) : string :=
  PyStr.replace text PyStr.LF sep.

(** Every line followed by the terminator [nl]. *)
Fixpoint terminated (nl : string) (lines : list string) : string :=
  match lines with
  | [] => EmptyString
  | line :: rest => (line +:+ nl) +:+ terminated nl rest
  end.

(** The vector lines [write_rows] gets to write: one per row, in order, up
    to the first row that [vector_to_string] rejects. *)
Fixpoint rendered_rows (row_idx : Z) (rows : list (list PyNum.number))
    : list string :=
  match rows with
  | [] => []
  | row :: rest =>
      match BasicSiemensTool.vector_to_string row_idx row
              BasicSiemensTool.default_decimals with
      | Ok s => s :: rendered_rows (row_idx + 1) rest
      | Raise _ => []
      end
  end.

(** ** Numbers and their decimal texts *)

(** The numbers with a decimal expansion: a float that is neither an
    infinity nor a NaN, and an int within the range of floats, that is
    below [2^1024 - 2^970] in absolute value, the middle between the
    largest float and [2^1024]. *)
Definition float_range : Z := 2 ^ 1024 - 2 ^ 970.

Definition is_real (x : PyNum.number) : bool :=
  match x with
  | PyNum.PyInt z => Z.abs z <? float_range
  | PyNum.PyFloat f => PyNum.is_finite f
  end.

(** The numbers [float] takes: every float, and an int within the range
    of floats. *)
Definition converts (x : PyNum.number) : Prop :=
  match x with
  | PyNum.PyInt z => Z.abs z < float_range
  | PyNum.PyFloat _ => True
  end.

(** A number is negative when its sign is; for floats that includes the
    negative zero. *)
Definition is_negative (x : PyNum.number) : bool :=
  match x with
  | PyNum.PyInt z => z <? 0
  | PyNum.PyFloat f => PyNum.sign_bit f
  end.

(** The number a digit stands for, and the number a text of digits reads
    as. *)
Definition digit_val (c : ascii) : Z := Z.of_nat (nat_of_ascii c) - 48.

Fixpoint digits_value_from (acc : Z) (s : string) : Z :=
  match s with
  | EmptyString => acc
  | String c rest => digits_value_from (10 * acc + digit_val c) rest
  end.

Definition digits_value (s : string) : Z := digits_value_from 0 s.

(** No zero stands before another digit at the head of the text. *)
Definition no_leading_zero (s : string) : bool :=
  match s with
  | String c (String _ _) => negb (Ascii.eqb c "0"%char)
  | _ => true
  end.

(** [q] is the integer nearest to [num / den], the even one of the two
    when [num / den] lies halfway. *)
Definition nearest_even (q num den : Z) : Prop :=
  2 * Z.abs (q * den - num) <= den
  /\ (2 * Z.abs (q * den - num) = den -> Z.even q = true).

(** The absolute value of a finite float, as a fraction. *)
Definition float_fraction (f : spec_float) : option (Z * Z) :=
  match f with
  | S754_zero _ => Some (0, 1)
  | S754_finite _ m e => Some (Z.pos m * 2 ^ Z.max e 0, 2 ^ Z.max (- e) 0)
  | _ => None
  end.

(** The float of an int keeps 53 significant bits: it is a multiple of
    [2 ^ int_exponent z]. *)
Definition int_exponent (z : Z) : Z := Z.max 0 (Z.log2 (Z.abs z) - 52).

(** [num / den] is the absolute value of the number as a float: the value
    of the float itself, and for an int the multiple of [2 ^ int_exponent z]
    nearest to it, the even multiple when the int lies halfway. *)
Definition float_value (x : PyNum.number) (num den : Z) : Prop :=
  match x with
  | PyNum.PyInt z =>
      den = 1
      /\ exists m : Z,
           nearest_even m (Z.abs z) (2 ^ int_exponent z)
           /\ num = m * 2 ^ int_exponent z
  | PyNum.PyFloat f => float_fraction f = Some (num, den)
  end.

(** The text of a number with [d] decimals: the sign position, a minus sign
    for a negative number and a space otherwise; the integer digits, at
    least one and no superfluous zero; behind a point exactly [d] fractional
    digits (no point when [d] is zero); and the digits, read as one number,
    are the value of the number as a float in units of [10 ^ - d], rounded
    to the nearest integer, to the even one when it lies halfway. *)
Definition decimal_text (x : PyNum.number) (d : nat) (s : string) : Prop :=
  exists (ip fp : string) (num den : Z),
    s = String (if is_negative x then "-"%char else " "%char)
          (ip +:+ match d with
                  | O => EmptyString
                  | S _ => String "."%char fp
                  end)
    /\ ip <> EmptyString
    /\ digits_only ip = true
    /\ no_leading_zero ip = true
    /\ digits_only fp = true
    /\ String.length fp = d
    /\ float_value x num den
    /\ 0 < den
    /\ nearest_even (digits_value ip * 10 ^ Z.of_nat d + digits_value fp)
         (num * 10 ^ Z.of_nat d) den.

(** The record of a mantissa [x] after [j] bits were shifted out of it: the
    bits that are left, and where the bits shifted out lie with respect to
    the half of the last place. *)
Definition located (x j : Z) (mrs : shr_record) : Prop :=
  shr_m mrs = x / 2 ^ j
  /\ loc_of_shr_record mrs
     = if x mod 2 ^ j =? 0 then loc_Exact
       else loc_Inexact (2 * (x mod 2 ^ j) ?= 2 ^ j).

(** ** Options and rows *)

(** The option keys [construct_header] looks up. *)
Definition header_options : list string :=
  ["default_path"; "description"; "Comment"; "CoordinateSystem"; "Normalisation"].

(** A row [vector_to_string] accepts with the default precision: three
    components or more, the first three of which convert to a float. *)
Definition row_ok (row : list PyNum.number) : Prop :=
  exists (a b c : PyNum.number) (rest : list PyNum.number),
    row = a :: b :: c :: rest /\ converts a /\ converts b /\ converts c.

(** ** Reading a file back *)

Definition not_lf (c : ascii) : bool := negb (Ascii.eqb c (ascii_of_nat 10)).

(** A text without a line feed. *)
Definition lf_free (s : string) : bool := all_chars not_lf s.

(** [text.split(c)] for a one-character separator; [cur] is the piece being
    read. *)
Fixpoint split_at (c : ascii) (text cur : string) : list string :=
  match text with
  | EmptyString => [cur]
  | String x text' =>
      if Ascii.eqb x c then cur :: split_at c text' EmptyString
      else split_at c text' (cur +:+ String x EmptyString)
  end.

(** * Properties *)

(** ** The primitives on examples *)

Example str_int_examples :
  PyStr.str_int 6 = "6" /\ PyStr.str_int 0 = "0" /\ PyStr.str_int (-1203) = "-1203".
Proof. repeat split. Qed.

Example replace_examples :
  PyStr.replace "ab[x]ab[x]" "[x" EmptyString = "ab]ab]"
  /\ PyStr.replace "aaa" "aa" "b" = "ba"
  /\ PyStr.replace "abc" EmptyString "-" = "-a-b-c-".
Proof. repeat split. Qed.

Example name_examples :
  PyPath.name "MyVectorSet.dvs" = "MyVectorSet.dvs"
  /\ PyPath.name "/tmp/out/./DiffusionVectors.txt/" = "DiffusionVectors.txt"
  /\ PyPath.name EmptyString = EmptyString
  /\ PyPath.name "/" = EmptyString
  /\ PyPath.name "out/.." = ".."
  /\ PyPath.name "//a/." = "a".
Proof. repeat split. Qed.

Example str_seq_examples :
  str_seq (PyTuple [0; 1000]) = "(0, 1000)"
  /\ str_seq (PyTuple [5]) = "(5,)"
  /\ str_seq (PyList [0; 1000]) = "[0, 1000]"
  /\ str_seq (PyList []) = "[]".
Proof. repeat split. Qed.

(** The literal [0.57735] is the float [5200306489724712 * 2^-53]. *)
Example float_lit_example :
  PyNum.float_lit 57735 100000 = S754_finite false 5200306489724712 (-53).
Proof. vm_compute. reflexivity. Qed.

(** Ties of the binary value go to the even digit; [2.675] lies below the
    tie; an int too large for a float is refused. *)
Example format_f_examples :
  PyNum.format_f (PyNum.PyFloat (PyNum.float_lit 5 10)) 0 = Ok " 0"
  /\ PyNum.format_f (PyNum.PyFloat (PyNum.float_lit 15 10)) 0 = Ok " 2"
  /\ PyNum.format_f (PyNum.PyFloat (PyNum.float_lit 2675 1000)) 2 = Ok " 2.67"
  /\ PyNum.format_f (PyNum.PyFloat (PyNum.float_lit 1 10)) 20
     = Ok " 0.10000000000000000555"
  /\ PyNum.format_f (PyNum.PyFloat (S754_zero true)) 6 = Ok "-0.000000"
  /\ PyNum.format_f (PyNum.PyFloat (S754_infinity false)) 6 = Ok " inf"
  /\ PyNum.format_f (PyNum.PyInt (-12)) 2 = Ok "-12.00"
  /\ PyNum.format_f (PyNum.PyInt (2 ^ 53 + 1)) 0 = Ok " 9007199254740992"
  /\ PyNum.format_f (PyNum.PyInt (2 ^ 53 + 3)) 0 = Ok " 9007199254740996"
  /\ PyNum.format_f (PyNum.PyInt (- (2 ^ 60 + 1))) 1 = Ok "-1152921504606846976.0"
  /\ PyNum.format_f (PyNum.PyInt (2 ^ 1024)) 6 = Raise OverflowError
  /\ PyNum.format_f (PyNum.PyInt (2 ^ 1024 - 2 ^ 970)) 6 = Raise OverflowError
  /\ PyNum.float_of_int (2 ^ 1024 - 2 ^ 970 - 1)
     = Ok (S754_finite false (2 ^ 53 - 1) 971)
  /\ PyNum.format_f (PyNum.PyFloat (PyNum.float_lit 1 2)) (-1) = Raise ValueError
  /\ PyNum.format_f (PyNum.PyFloat (S754_infinity false)) (2 ^ 31) = Raise ValueError
  /\ PyNum.format_f (PyNum.PyInt (2 ^ 1024)) (2 ^ 31) = Raise OverflowError
  /\ PyNum.format_f (PyNum.PyInt (2 ^ 1024)) (2 ^ 63) = Raise ValueError.
Proof. repeat split; vm_compute; reflexivity. Qed.

(** The draft's [construct_header] never returns a header. *)
Remark draft_construct_header_raises (self : tool) (filename : pyfile) :
  SimensToolDraft.construct_header self filename = Raise NameError.
Proof. reflexivity. Qed.

(** ** Strings *)

Section StringFacts.

Lemma append_empty_r (s : string) : s +:+ EmptyString = s.
Proof. induction s as [|c s IH]; simpl; [reflexivity | now rewrite IH]. Qed.

Lemma append_assoc (s t u : string) : (s +:+ t) +:+ u = s +:+ t +:+ u.
Proof. induction s as [|c s IH]; simpl; [reflexivity | now rewrite IH]. Qed.

Lemma length_app (s t : string) :
  String.length (s +:+ t) = (String.length s + String.length t)%nat.
Proof. induction s as [|c s IH]; simpl; [reflexivity | now rewrite IH]. Qed.

Lemma all_chars_app (P : ascii -> bool) (s t : string) :
  all_chars P (s +:+ t) = all_chars P s && all_chars P t.
Proof.
  induction s as [|c s IH]; simpl; [reflexivity|].
  now rewrite IH, andb_assoc.
Qed.

Lemma all_chars_weaken (P Q : ascii -> bool) (s : string) :
  (forall c, P c = true -> Q c = true) ->
  all_chars P s = true -> all_chars Q s = true.
Proof.
  intros HPQ. induction s as [|c s IH]; simpl; [reflexivity|].
  rewrite !andb_true_iff. intros [Hc Hs]. split; auto.
Qed.

Lemma is_digit_not_bracket (c : ascii) : is_digit c = true -> not_bracket c = true.
Proof.
  unfold is_digit, not_bracket. intros H.
  destruct (Ascii.eqb_spec c "["%char) as [->|]; [discriminate H | reflexivity].
Qed.

Lemma string_of_uint_digits (u : Decimal.uint) :
  digits_only (NilEmpty.string_of_uint u) = true.
Proof. induction u; simpl; auto. Qed.

Lemma str_int_nonneg_digits (n : Z) :
  0 <= n -> digits_only (PyStr.str_int n) = true.
Proof.
  intros Hn. unfold PyStr.str_int.
  destruct n as [|p|p]; [reflexivity | | lia].
  apply string_of_uint_digits.
Qed.

Lemma str_int_not_bracket (n : Z) :
  all_chars not_bracket (PyStr.str_int n) = true.
Proof.
  unfold PyStr.str_int.
  destruct n as [|p|p]; [reflexivity | |]; simpl;
    apply (all_chars_weaken is_digit), string_of_uint_digits;
    apply is_digit_not_bracket.
Qed.

Lemma str_int_nonempty (n : Z) : PyStr.str_int n <> EmptyString.
Proof.
  unfold PyStr.str_int.
  destruct n as [|p|p]; [discriminate | | discriminate].
  simpl. pose proof (Unsigned.to_uint_nonnil p) as Hp.
  destruct (Pos.to_uint p); simpl; try discriminate.
  now elim Hp.
Qed.

Lemma prefix_app (p s : string) : String.prefix p (p +:+ s) = true.
Proof.
  induction p as [|c p IH]; simpl; [now destruct s|].
  destruct (ascii_dec c c); [exact IH | congruence].
Qed.

End StringFacts.

(** ** Replacing a prefix *)

Section ReplaceFacts.

Variables (c : ascii) (p new : string).

Let old : string := String c p.

Lemma replace_from_skip (q s : string) :
  PyStr.replace_from old new (String.length q) (q +:+ s)
  = PyStr.replace_from old new 0 s.
Proof. induction q as [|x q IH]; simpl; [reflexivity | exact IH]. Qed.

(** An occurrence at the front is replaced and the scan goes on behind it. *)
Lemma replace_from_occurrence (rest : string) :
  PyStr.replace_from old new 0 (old +:+ rest)
  = new +:+ PyStr.replace_from old new 0 rest.
Proof.
  unfold old. change (String c p +:+ rest) with (String c (p +:+ rest)).
  cbn [PyStr.replace_from].
  change (String c (p +:+ rest)) with (String c p +:+ rest).
  rewrite prefix_app. f_equal.
  replace (String.length (String c p) - 1)%nat with (String.length p)
    by (simpl; lia).
  apply replace_from_skip.
Qed.

(** A text without the first character of [old] has no occurrence. *)
Lemma replace_from_absent (s : string) :
  all_chars (fun x => negb (Ascii.eqb x c)) s = true ->
  PyStr.replace_from old new 0 s = s.
Proof.
  induction s as [|x s IH]; simpl; [reflexivity|].
  rewrite andb_true_iff. intros [Hx Hs].
  destruct (ascii_dec c x) as [->|_].
  - rewrite Ascii.eqb_refl in Hx. discriminate Hx.
  - now rewrite IH.
Qed.

Lemma contains_absent (s : string) :
  all_chars (fun x => negb (Ascii.eqb x c)) s = true ->
  PyStr.contains old s = false.
Proof.
  induction s as [|x s IH]; simpl; [reflexivity|].
  rewrite andb_true_iff. intros [Hx Hs].
  destruct (ascii_dec c x) as [->|_].
  - rewrite Ascii.eqb_refl in Hx. discriminate Hx.
  - now apply IH.
Qed.

End ReplaceFacts.

(** ** The header *)

Create HintDb header.

Section HeaderFacts.

Variables (self : tool) (current_time : string) (filename : pyfile).
Variables (n_dims : Z) (b_values : pyseq).

(** The header is the top, the marker and the bottom. *)
Lemma construct_header_eq :
  BasicSiemensTool.construct_header self current_time filename n_dims b_values
  = header_top self current_time filename n_dims b_values
      ++ marker (len b_values * n_dims) :: header_bottom self.
Proof.
  unfold BasicSiemensTool.construct_header, header_top, comment_lines,
    header_bottom, marker, directory, file_name.
  destruct (options self !! "Comment") as [comment|]; [|reflexivity].
  destruct (PyStr.truthy comment); reflexivity.
Qed.

Lemma header_top_no_marker :
  Forall (fun line => is_marker line = false)
    (header_top self current_time filename n_dims b_values).
Proof.
  unfold header_top, comment_lines.
  repeat (apply Forall_cons; split; [reflexivity|]).
  apply Forall_app; split.
  - destruct (options self !! "Comment") as [comment|]; [|constructor].
    destruct (PyStr.truthy comment); repeat constructor.
  - repeat constructor.
Qed.

Lemma header_bottom_no_marker :
  Forall (fun line => is_marker line = false) (header_bottom self).
Proof. repeat constructor. Qed.

Lemma header_rest_no_marker :
  Forall (fun line => is_marker line = false)
    (header_top self current_time filename n_dims b_values ++ header_bottom self).
Proof.
  apply Forall_app; split;
    [apply header_top_no_marker | apply header_bottom_no_marker].
Qed.

Lemma header_lookup_file_line :
  BasicSiemensTool.construct_header self current_time filename n_dims b_values
    !! 1%nat
  = Some ("# File: " +:+ directory self +:+ file_name filename).
Proof. rewrite construct_header_eq. reflexivity. Qed.

Lemma header_lookup_dimension_line :
  BasicSiemensTool.construct_header self current_time filename n_dims b_values
    !! 5%nat
  = Some ("number dimensions: " +:+ PyStr.str_int n_dims).
Proof. rewrite construct_header_eq. reflexivity. Qed.

End HeaderFacts.

#[local] Hint Resolve header_top_no_marker header_bottom_no_marker
  header_rest_no_marker : header.

(** ** The legacy marker *)

Section LegacyFacts.

Lemma stripped_marker_no_bracket (n : Z) :
  all_chars not_bracket (PyStr.str_int n +:+ "]") = true.
Proof. now rewrite all_chars_app, str_int_not_bracket. Qed.

Lemma replace_marker (n : Z) :
  PyStr.replace (marker n) "[directions=" EmptyString = PyStr.str_int n +:+ "]".
Proof.
  unfold PyStr.replace, marker.
  rewrite (replace_from_occurrence "["%char "directions=" EmptyString).
  apply (replace_from_absent "["%char), stripped_marker_no_bracket.
Qed.

Lemma is_marker_marker (n : Z) : is_marker (marker n) = true.
Proof. apply (prefix_app "[directions="). Qed.

Lemma strip_directions_other (l : list string) :
  Forall (fun line => is_marker line = false) l ->
  LegacySiemensTool.strip_directions l = l.
Proof.
  induction 1 as [|line l Hline _ IH]; [reflexivity|].
  unfold LegacySiemensTool.strip_directions in *.
  rewrite map_cons, IH. unfold is_marker in Hline. now rewrite Hline.
Qed.

Lemma strip_directions_header self current_time filename n_dims b_values :
  LegacySiemensTool.strip_directions
    (BasicSiemensTool.construct_header self current_time filename n_dims b_values)
  = header_top self current_time filename n_dims b_values
      ++ (PyStr.str_int (len b_values * n_dims) +:+ "]") :: header_bottom self.
Proof.
  rewrite construct_header_eq.
  unfold LegacySiemensTool.strip_directions at 1.
  rewrite map_app, map_cons.
  fold (LegacySiemensTool.strip_directions
          (header_top self current_time filename n_dims b_values)).
  fold (LegacySiemensTool.strip_directions (header_bottom self)).
  rewrite !strip_directions_other by auto with header.
  fold (is_marker (marker (len b_values * n_dims))).
  now rewrite is_marker_marker, replace_marker.
Qed.

End LegacyFacts.

(** ** The directory *)

Section DirectoryFacts.

Lemma directory_override (self : tool) (d : string) :
  options self !! "default_path" = Some d -> directory self = d.
Proof. unfold directory, dict_get. now intros ->. Qed.

Lemma directory_default (self : tool) :
  options self !! "default_path" = None ->
  directory self = "C:\\Medcom\\MriCustomer\\seq\\DiffusionVectorSets\\".
Proof. unfold directory, dict_get. now intros ->. Qed.

(** The legacy constructor stores its directory over whatever the keyword
    arguments gave. *)
Lemma legacy_directory (self : tool) :
  directory (LegacySiemensTool.set_options self) = "C:\\Medcom\\MriCustomer\\seq\\".
Proof. apply directory_override. simpl. apply lookup_insert_eq. Qed.

End DirectoryFacts.

(** C1.  For a non-empty b-value sequence and a positive [n_dims], the
    header returned by [construct_header] has exactly one line that starts
    with the marker prefix; it reads [[directions=N]] where [N] is
    [len(b_values) * n_dims], a positive count written in decimal digits. *)
Theorem construct_header_direction_count
    (self : tool) (current_time : string) (filename : pyfile)
    (n_dims : Z) (b_values : pyseq) :
  seq_items b_values <> [] ->
  0 < n_dims ->
  exists pre post : list string,
    BasicSiemensTool.construct_header self current_time filename n_dims b_values
      = pre ++ ("[directions=" +:+ PyStr.str_int (len b_values * n_dims) +:+ "]") :: post
    /\ Forall (fun line => PyStr.startswith line "[directions=" = false) (pre ++ post)
    /\ 0 < len b_values * n_dims
    /\ digits_only (PyStr.str_int (len b_values * n_dims)) = true.
Proof.
  intros Hne Hpos.
  assert (Hlen : 0 < len b_values).
  { unfold len. destruct (seq_items b_values); [congruence | simpl; lia]. }
  exists (header_top self current_time filename n_dims b_values), (header_bottom self).
  split; [apply construct_header_eq|].
  split; [apply header_rest_no_marker|].
  split; [lia|]. apply str_int_nonneg_digits. lia.
Qed.

Lemma construct_header_direction_count_witness :
  exists pre post : list string,
    BasicSiemensTool.construct_header
      (BasicSiemensTool.init (PyList [0; 1000]) 3 ∅)
      "Wed Jan 15 14:32:07 2025" FNone 3 (PyList [0; 1000])
      = pre ++ ("[directions=" +:+ PyStr.str_int (len (PyList [0; 1000]) * 3) +:+ "]") :: post
    /\ Forall (fun line => PyStr.startswith line "[directions=" = false) (pre ++ post)
    /\ 0 < len (PyList [0; 1000]) * 3
    /\ digits_only (PyStr.str_int (len (PyList [0; 1000]) * 3)) = true.
Proof.
  apply construct_header_direction_count; [discriminate | lia].
Defined.

(** C3.  The loop of the legacy [save] turns the header of
    [construct_header] into the same lines with the direction marker
    [[directions=N]] replaced by [N]]: the prefix is gone, the closing
    bracket is kept, and that line does not contain the prefix any more.
    The legacy [save] writes the header so obtained for the default
    arguments, where [N] is [2 * 3]; no line of it starts with the prefix. *)
Theorem legacy_direction_marker_stripped
    (os : platform) (self : tool) (current_time : string) (filename : pyfile)
    (n_dims : Z) (b_values : pyseq)
    (diffusion_vectors : list (list PyNum.number)) :
  exists pre post : list string,
    BasicSiemensTool.construct_header self current_time filename n_dims b_values
      = pre ++ ("[directions=" +:+ PyStr.str_int (len b_values * n_dims) +:+ "]") :: post
    /\ LegacySiemensTool.strip_directions
         (BasicSiemensTool.construct_header self current_time filename n_dims b_values)
      = pre ++ (PyStr.str_int (len b_values * n_dims) +:+ "]") :: post
    /\ PyStr.contains "[directions=" (PyStr.str_int (len b_values * n_dims) +:+ "]") = false
    /\ exists pre6 post6 : list string,
         LegacySiemensTool.save os self current_time diffusion_vectors filename
         = BasicSiemensTool.write os self filename (pre6 ++ "6]" :: post6)
             diffusion_vectors
         /\ Forall (fun line => PyStr.startswith line "[directions=" = false)
              (pre6 ++ "6]" :: post6).
Proof.
  exists (header_top self current_time filename n_dims b_values), (header_bottom self).
  split; [apply construct_header_eq|].
  split; [apply strip_directions_header|].
  split; [apply (contains_absent "["%char), stripped_marker_no_bracket|].
  exists (header_top self current_time filename 3 (PyTuple [0; 1000])),
    (header_bottom self).
  split.
  - unfold LegacySiemensTool.save. now rewrite strip_directions_header.
  - apply Forall_app; split; [apply header_top_no_marker|].
    constructor; [reflexivity | apply header_bottom_no_marker].
Qed.

(** ** The file-path line *)

(** C5.  With no options and the output name [MyVectorSet.dvs], the
    file-path line of the current variant has every backslash of the
    directory twice, since the directory is a raw literal written with
    doubled backslashes; it is not the line with single backslashes.  The
    legacy directory is the one a level up, written the same way. *)
Theorem file_line_doubled_backslashes :
  BasicSiemensTool.construct_header
    (BasicSiemensTool.init (PyTuple [0; 1000]) 3 ∅)
    "Wed Jan 15 14:32:07 2025" (FStr "MyVectorSet.dvs") 3 (PyTuple [0; 1000])
    !! 1%nat
  = Some "# File: C:\\Medcom\\MriCustomer\\seq\\DiffusionVectorSets\\MyVectorSet.dvs"
  /\ "# File: C:\\Medcom\\MriCustomer\\seq\\DiffusionVectorSets\\MyVectorSet.dvs"
     <> "# File: C:\Medcom\MriCustomer\seq\DiffusionVectorSets\MyVectorSet.dvs"
  /\ BasicSiemensTool.construct_header
       (LegacySiemensTool.init (PyTuple [0; 1000]) 3 ∅)
       "Wed Jan 15 14:32:07 2025" (FStr "MyVectorSet.dvs") 3 (PyTuple [0; 1000])
       !! 1%nat
     = Some "# File: C:\\Medcom\\MriCustomer\\seq\\MyVectorSet.dvs".
Proof.
  split; [reflexivity|].
  split; [discriminate|].
  rewrite header_lookup_file_line.
  unfold LegacySiemensTool.init. rewrite legacy_directory. reflexivity.
Qed.

(** C6, as stated, fails for the empty string: the path built from it has
    an empty [name], and the file-path line ends with the directory. *)
Lemma empty_name_not_defaulted :
  BasicSiemensTool.construct_header
    (BasicSiemensTool.init (PyTuple [0; 1000]) 3 ∅)
    "Wed Jan 15 14:32:07 2025" (FStr EmptyString) 3 (PyTuple [0; 1000])
    !! 1%nat
  = Some "# File: C:\\Medcom\\MriCustomer\\seq\\DiffusionVectorSets\\"
  /\ BasicSiemensTool.construct_header
       (BasicSiemensTool.init (PyTuple [0; 1000]) 3 ∅)
       "Wed Jan 15 14:32:07 2025" (FStr EmptyString) 3 (PyTuple [0; 1000])
       !! 1%nat
     <> Some "# File: C:\\Medcom\\MriCustomer\\seq\\DiffusionVectorSets\\MyVectorSet.dvs".
Proof. split; [reflexivity | discriminate]. Qed.

(** C6, amended.  When the file name is absent ([None]) the file-path line
    names [MyVectorSet.dvs]; when it is the empty string the name is empty
    and the line is the directory alone. *)
Theorem absent_name_defaulted
    (self : tool) (current_time : string) (n_dims : Z) (b_values : pyseq) :
  BasicSiemensTool.construct_header self current_time FNone n_dims b_values !! 1%nat
  = Some ("# File: " +:+ directory self +:+ "MyVectorSet.dvs")
  /\ BasicSiemensTool.construct_header self current_time (FStr EmptyString)
       n_dims b_values !! 1%nat
     = Some ("# File: " +:+ directory self).
Proof.
  rewrite !header_lookup_file_line. split; [reflexivity|].
  simpl. change (PyPath.name EmptyString) with EmptyString.
  now rewrite append_empty_r.
Qed.

(** ** No validation of the direction count *)

(** C7, as stated, fails: with no b-values [construct_header] returns a
    header, and its marker reads [[directions=0]]. *)
Lemma empty_b_values_not_rejected :
  BasicSiemensTool.construct_header
    (BasicSiemensTool.init (PyList []) 3 ∅)
    "Wed Jan 15 14:32:07 2025" FNone 3 (PyList [])
  = [ BasicSiemensTool.separator;
      "# File: C:\\Medcom\\MriCustomer\\seq\\DiffusionVectorSets\\MyVectorSet.dvs";
      "# Date: Wed Jan 15 14:32:07 2025";
      "# Description: Vector file for Siemens 'free' diffusion mode.";
      "b-values: []";
      "number dimensions: 3";
      BasicSiemensTool.separator;
      "[directions=0]";
      "CoordinateSystem = xyz";
      "Normalisation = none" ].
Proof. reflexivity. Qed.

(** C7, amended.  [construct_header] checks nothing: for an empty b-value
    sequence or a non-positive [n_dims] it returns the usual header, whose
    marker states the product, zero or negative as it may be. *)
Theorem construct_header_unvalidated
    (self : tool) (current_time : string) (filename : pyfile)
    (n_dims : Z) (b_values : pyseq) :
  seq_items b_values = [] \/ n_dims <= 0 ->
  exists pre post : list string,
    BasicSiemensTool.construct_header self current_time filename n_dims b_values
      = pre ++ ("[directions=" +:+ PyStr.str_int (len b_values * n_dims) +:+ "]") :: post
    /\ len b_values * n_dims <= 0.
Proof.
  intros H.
  exists (header_top self current_time filename n_dims b_values), (header_bottom self).
  split; [apply construct_header_eq|].
  unfold len. destruct H as [-> | H]; [simpl; lia | nia].
Qed.

Lemma construct_header_unvalidated_witness :
  exists pre post : list string,
    BasicSiemensTool.construct_header
      (BasicSiemensTool.init (PyList [0; 1000]) (-3) ∅)
      "Wed Jan 15 14:32:07 2025" FNone (-3) (PyList [0; 1000])
      = pre ++ ("[directions=" +:+ PyStr.str_int (len (PyList [0; 1000]) * (-3)) +:+ "]") :: post
    /\ len (PyList [0; 1000]) * (-3) <= 0.
Proof.
  apply construct_header_unvalidated. right. lia.
Defined.

(** ** The dimension line *)

(** C9, as stated, fails: the file the legacy [save] writes has the
    dimension line, as its sixth line (here on a platform whose line
    separator is the line feed and that opens the path). *)
Lemma legacy_header_has_dimension_line :
  fst (LegacySiemensTool.save (platform_of PyStr.LF)
         (LegacySiemensTool.init (PyList [0; 1000]) 3 ∅)
         "Wed Jan 15 14:32:07 2025" [] LegacySiemensTool.default_filename)
  = Some (terminated PyStr.CRLF
            [ BasicSiemensTool.separator;
              "# File: C:\\Medcom\\MriCustomer\\seq\\DiffusionVectors.txt";
              "# Date: Wed Jan 15 14:32:07 2025";
              "# Description: Vector file for Siemens 'free' diffusion mode.";
              "b-values: (0, 1000)";
              "number dimensions: 3";
              BasicSiemensTool.separator;
              "6]";
              "CoordinateSystem = xyz";
              "Normalisation = none" ]).
Proof. vm_compute. reflexivity. Qed.

(** C9, amended.  The dimension line is the sixth line of the header of
    [construct_header], and the loop of the legacy [save] leaves it there:
    both variants write it. *)
Theorem dimension_line_in_both_variants
    (self : tool) (current_time : string) (filename : pyfile)
    (n_dims : Z) (b_values : pyseq) :
  BasicSiemensTool.construct_header self current_time filename n_dims b_values
    !! 5%nat = Some ("number dimensions: " +:+ PyStr.str_int n_dims)
  /\ LegacySiemensTool.strip_directions
       (BasicSiemensTool.construct_header self current_time filename n_dims b_values)
       !! 5%nat = Some ("number dimensions: " +:+ PyStr.str_int n_dims).
Proof.
  rewrite strip_directions_header, construct_header_eq. split; reflexivity.
Qed.

(** ** The written file *)

Section WriteFacts.

Import BasicSiemensTool.

Lemma terminated_app (nl : string) (l1 l2 : list string) :
  terminated nl (l1 ++ l2) = terminated nl l1 +:+ terminated nl l2.
Proof.
  induction l1 as [|line l1 IH]; simpl; [reflexivity|].
  now rewrite IH, !append_assoc.
Qed.

Lemma prefix_empty (s : string) : String.prefix EmptyString s = true.
Proof. now destruct s. Qed.

(** Replacing a single character goes through a concatenation. *)
Lemma stored_app (sep s t : string) :
  stored sep (s +:+ t) = stored sep s +:+ stored sep t.
Proof.
  unfold stored, PyStr.replace, PyStr.LF.
  induction s as [|x s IH]; [reflexivity|].
  change (String x s +:+ t) with (String x (s +:+ t)).
  cbn [PyStr.replace_from String.prefix String.length Nat.sub].
  destruct (ascii_dec (ascii_of_nat 10) x); rewrite ?prefix_empty, IH.
  - now rewrite append_assoc.
  - reflexivity.
Qed.

(** Where the line separator is the line feed the text is stored as it
    is. *)
Lemma stored_lf (text : string) : stored PyStr.LF text = text.
Proof.
  unfold stored, PyStr.replace, PyStr.LF.
  induction text as [|x text IH]; [reflexivity|].
  cbn [PyStr.replace_from String.prefix String.length Nat.sub].
  destruct (ascii_dec (ascii_of_nat 10) x) as [<-|_];
    rewrite ?prefix_empty, IH; reflexivity.
Qed.

Lemma write_header_eq (sep : string) (self : tool) (header : list string)
    (file : string) :
  write_header sep self header file
  = file +:+ stored sep (terminated (newline self) header).
Proof.
  revert file. induction header as [|line header IH]; intros file;
    cbn [write_header terminated].
  - cbn. now rewrite append_empty_r.
  - rewrite IH. unfold file_write. fold (stored sep (line +:+ newline self)).
    now rewrite !append_assoc, !stored_app, ?append_assoc.
Qed.

Lemma write_rows_eq (sep : string) (self : tool)
    (rows : list (list PyNum.number)) :
  forall (row_idx : Z) (file : string),
    fst (write_rows sep self row_idx rows file)
    = file +:+ stored sep
                 (terminated (newline self) (rendered_rows row_idx rows)).
Proof.
  induction rows as [|row rows IH]; intros row_idx file;
    cbn [write_rows rendered_rows].
  - cbn. now rewrite append_empty_r.
  - destruct (vector_to_string row_idx row default_decimals) as [s|e].
    + rewrite IH. unfold file_write. fold (stored sep (s +:+ newline self)).
      cbn [terminated]. now rewrite !append_assoc, !stored_app, ?append_assoc.
    + cbn. now rewrite append_empty_r.
Qed.


Lemma rendered_rows_lookup (rows : list (list PyNum.number)) :
  forall (row_idx : Z) (i : nat) (s : string),
    rendered_rows row_idx rows !! i = Some s ->
    exists row, rows !! i = Some row
      /\ vector_to_string (row_idx + Z.of_nat i) row default_decimals = Ok s.
Proof.
  induction rows as [|row rows IH]; intros row_idx i s; simpl; [discriminate|].
  destruct (vector_to_string row_idx row default_decimals) as [s0|e] eqn:E; [|discriminate].
  destruct i as [|i]; simpl.
  - intros [= <-]. exists row. now rewrite Z.add_0_r.
  - intros H. destruct (IH _ _ _ H) as [r [Hr Hs]]. exists r. split; [exact Hr|].
    now replace (row_idx + Z.of_nat (S i)) with (row_idx + 1 + Z.of_nat i) by lia.
Qed.

Lemma write_fst (os : platform) (self : tool) (filename : pyfile)
    (header : list string) (rows : list (list PyNum.number)) :
  fst (write os self filename header rows)
  = if opens os filename
    then Some (stored (linesep os)
                 (terminated (newline self) (header ++ rendered_rows 0 rows)))
    else None.
Proof.
  destruct filename as [|s|p]; [reflexivity | reflexivity |].
  unfold write, opens. destruct (open_w os p) as [[]|e]; [|reflexivity].
  rewrite write_header_eq.
  pose proof (write_rows_eq (linesep os) self rows 0
                (EmptyString +:+
                 stored (linesep os) (terminated (newline self) header)))
    as H.
  destruct (write_rows _ _ _ _ _) as [file r]. simpl in *.
  now rewrite H, terminated_app, stored_app.
Qed.




Lemma legacy_newline (self : tool) :
  newline (LegacySiemensTool.set_options self) = PyStr.CRLF.
Proof.
  unfold newline, dict_get. simpl.
  rewrite lookup_insert_ne by discriminate.
  now rewrite lookup_insert_eq.
Qed.

End WriteFacts.




(** ** The vector line *)

Section DigitFacts.

Import PyNum.

Lemma digit_is_digit (n : Z) : is_digit (digit n) = true.
Proof.
  unfold digit.
  assert (H : (Z.to_nat (n mod 10) < 10)%nat)
    by (pose proof (Z.mod_pos_bound n 10); lia).
  revert H. generalize (Z.to_nat (n mod 10)). intros m H.
  destruct m as [|[|[|[|[|[|[|[|[|[|m]]]]]]]]]]; try reflexivity; lia.
Qed.

Lemma digit_val_digit (n : Z) : digit_val (digit n) = n mod 10.
Proof.
  unfold digit, digit_val.
  pose proof (Z.mod_pos_bound n 10 ltac:(lia)) as B.
  rewrite nat_ascii_embedding by lia. lia.
Qed.

Lemma frac_digits_length (d : nat) (n : Z) : String.length (frac_digits d n) = d.
Proof.
  revert n. induction d as [|d IH]; intros n; cbn [frac_digits]; [reflexivity|].
  rewrite length_app, IH. cbn [String.length]. lia.
Qed.

Lemma frac_digits_digits (d : nat) (n : Z) : digits_only (frac_digits d n) = true.
Proof.
  revert n. induction d as [|d IH]; intros n; cbn [frac_digits]; [reflexivity|].
  unfold digits_only in *. rewrite all_chars_app, IH. cbn [all_chars andb].
  now rewrite digit_is_digit.
Qed.

Lemma digits_value_from_app (s t : string) (acc : Z) :
  digits_value_from acc (s +:+ t) = digits_value_from (digits_value_from acc s) t.
Proof.
  revert acc. induction s as [|c s IH]; intros acc; [reflexivity|].
  cbn [String.append digits_value_from]. apply IH.
Qed.

(** The fractional digits read as the number they were taken from, short
    of what does not fit in [d] digits. *)
Lemma frac_digits_value (d : nat) (n acc : Z) :
  digits_value_from acc (frac_digits d n)
  = acc * 10 ^ Z.of_nat d + n mod 10 ^ Z.of_nat d.
Proof.
  revert n. induction d as [|d IH]; intros n; cbn [frac_digits].
  - cbn [digits_value_from]. rewrite Z.pow_0_r, Z.mod_1_r. lia.
  - rewrite digits_value_from_app, IH. cbn [digits_value_from].
    rewrite digit_val_digit, Nat2Z.inj_succ, Z.pow_succ_r by lia.
    assert (0 < 10 ^ Z.of_nat d) by (apply Z.pow_pos_nonneg; lia).
    rewrite (Z.rem_mul_r n 10 (10 ^ Z.of_nat d)) by lia. lia.
Qed.

Lemma of_uint_acc_value (u : Decimal.uint) (acc : positive) :
  digits_value_from (Z.pos acc) (NilEmpty.string_of_uint u)
  = Z.pos (Pos.of_uint_acc u acc).
Proof.
  revert acc.
  induction u as [|u IH|u IH|u IH|u IH|u IH|u IH|u IH|u IH|u IH|u IH];
    intros acc; [reflexivity|..];
    cbn [NilEmpty.string_of_uint digits_value_from Pos.of_uint_acc];
    rewrite <- IH; f_equal; unfold digit_val;
    match goal with
    | |- context [nat_of_ascii ?c] =>
        let v := eval vm_compute in (nat_of_ascii c) in
        change (nat_of_ascii c) with v
    end; lia.
Qed.

Lemma of_uint_value (u : Decimal.uint) :
  digits_value (NilEmpty.string_of_uint u) = Z.of_N (Pos.of_uint u).
Proof.
  unfold digits_value.
  induction u as [|u IH|u IH|u IH|u IH|u IH|u IH|u IH|u IH|u IH|u IH];
    [reflexivity | exact IH | ..];
    cbn [NilEmpty.string_of_uint digits_value_from Pos.of_uint Z.of_N];
    rewrite <- of_uint_acc_value; reflexivity.
Qed.

(** The text of a natural number reads as that number. *)
Lemma str_int_value (n : Z) : 0 <= n -> digits_value (PyStr.str_int n) = n.
Proof.
  intros Hn. unfold PyStr.str_int. destruct n as [|p|p]; [reflexivity | | lia].
  cbn [Z.to_int NilEmpty.string_of_int].
  now rewrite of_uint_value, DecimalPos.Unsigned.of_to.
Qed.

Lemma nzhead_head (u v : Decimal.uint) : Decimal.nzhead u <> Decimal.D0 v.
Proof. induction u; cbn [Decimal.nzhead]; try discriminate; exact IHu. Qed.

Lemma to_uint_head (p : positive) (v : Decimal.uint) :
  Pos.to_uint p <> Decimal.D0 v.
Proof.
  intros E.
  pose proof (DecimalPos.Unsigned.to_of (Pos.to_uint p)) as H.
  rewrite DecimalPos.Unsigned.of_to in H. cbn [N.to_uint] in H.
  pose proof (DecimalPos.Unsigned.to_uint_nonzero p) as Z.
  unfold Decimal.unorm in H.
  pose proof (nzhead_head (Pos.to_uint p)) as N.
  destruct (Decimal.nzhead (Pos.to_uint p)) eqn:D;
    try (rewrite H in E; discriminate).
  - now apply Z.
  - now apply (N u).
Qed.

Lemma str_int_no_leading_zero (n : Z) :
  0 <= n -> no_leading_zero (PyStr.str_int n) = true.
Proof.
  intros Hn. unfold PyStr.str_int. destruct n as [|p|p]; [reflexivity | | lia].
  cbn [Z.to_int NilEmpty.string_of_int].
  pose proof (to_uint_head p) as H.
  destruct (Pos.to_uint p) as [|u|u|u|u|u|u|u|u|u|u];
    [reflexivity | now destruct (H u) | ..];
    cbn [NilEmpty.string_of_uint no_leading_zero];
    destruct (NilEmpty.string_of_uint u); reflexivity.
Qed.

End DigitFacts.

Section RoundingFacts.

Import PyNum.

Lemma round_half_even_nearest (num den : Z) :
  0 < den -> nearest_even (round_half_even num den) num den.
Proof.
  intros Hd. unfold round_half_even, nearest_even.
  pose proof (Z.div_mod num den ltac:(lia)) as E.
  pose proof (Z.mod_pos_bound num den Hd) as B.
  set (q := num / den) in *. set (r := num mod den) in *.
  destruct (Z.compare_spec (2 * r) den) as [C|C|C].
  - destruct (Z.even q) eqn:Ev.
    + split; [nia | auto].
    + split; [nia|]. intros _.
      rewrite Z.add_1_r, Z.even_succ, <- Z.negb_even, Ev. reflexivity.
  - split; nia.
  - split; nia.
Qed.

Lemma round_half_even_bounds (num den : Z) :
  num / den <= round_half_even num den <= num / den + 1.
Proof.
  unfold round_half_even.
  destruct (2 * (num mod den) ?= den); [destruct (Z.even _)| |]; lia.
Qed.

Lemma round_half_even_nonneg (num den : Z) :
  0 <= num -> 0 < den -> 0 <= round_half_even num den.
Proof.
  intros Hn Hd. pose proof (round_half_even_bounds num den).
  assert (0 <= num / den) by (apply Z.div_pos; lia). lia.
Qed.

(** A number that is a multiple of the unit is its own nearest multiple. *)
Lemma nearest_even_exact (q v c : Z) :
  0 < c -> nearest_even q (v * c) c -> q = v.
Proof. unfold nearest_even. intros Hc [H _]. nia. Qed.

Lemma nearest_even_refl (v : Z) : nearest_even v v 1.
Proof. unfold nearest_even. split; lia. Qed.

Lemma scaled_nonneg (m : positive) (e : Z) (d : nat) : 0 <= scaled m e d.
Proof.
  unfold scaled. destruct (0 <=? e) eqn:E.
  - apply Z.leb_le in E.
    assert (0 < 2 ^ e) by (apply Z.pow_pos_nonneg; lia).
    assert (0 < 10 ^ Z.of_nat d) by (apply Z.pow_pos_nonneg; lia).
    nia.
  - apply Z.leb_gt in E. apply round_half_even_nonneg.
    + assert (0 < 10 ^ Z.of_nat d) by (apply Z.pow_pos_nonneg; lia). nia.
    + apply Z.pow_pos_nonneg; lia.
Qed.

End RoundingFacts.

(** The float of an int.  [binary_normalize] shifts the bits that do not
    fit out of the mantissa one by one and rounds on what was shifted
    out. *)
Section FloatOfIntFacts.

Import PyNum.

Lemma digits2_pos_bounds (p : positive) :
  2 ^ (Z.pos (digits2_pos p) - 1) <= Z.pos p < 2 ^ Z.pos (digits2_pos p).
Proof.
  induction p as [p IH|p IH|]; cbn [digits2_pos]; [| |cbn; lia];
    rewrite Pos2Z.inj_succ;
    replace (Z.succ (Z.pos (digits2_pos p)) - 1)
      with (Z.succ (Z.pos (digits2_pos p) - 1)) by lia;
    rewrite !Z.pow_succ_r by lia; lia.
Qed.

Lemma digits2_pos_log2 (p : positive) :
  Z.pos (digits2_pos p) = Z.log2 (Z.pos p) + 1.
Proof.
  pose proof (digits2_pos_bounds p) as B.
  rewrite (Z.log2_unique (Z.pos p) (Z.pos (digits2_pos p) - 1)); [lia | lia |].
  now replace (Z.succ (Z.pos (digits2_pos p) - 1)) with (Z.pos (digits2_pos p)) by lia.
Qed.

Lemma digits2_pos_unique (p : positive) (n : Z) :
  2 ^ (n - 1) <= Z.pos p < 2 ^ n -> 1 <= n -> Z.pos (digits2_pos p) = n.
Proof.
  intros B Hn. rewrite digits2_pos_log2.
  rewrite (Z.log2_unique (Z.pos p) (n - 1)); [lia | lia |].
  now replace (Z.succ (n - 1)) with n by lia.
Qed.

Lemma iter_xO (d p : positive) : Z.pos (Pos.iter xO p d) = Z.pos p * 2 ^ Z.pos d.
Proof.
  induction d as [|d IH] using Pos.peano_ind.
  - cbn. lia.
  - rewrite Pos.iter_succ, Pos2Z.inj_xO, IH, Pos2Z.inj_succ, Z.pow_succ_r by lia. lia.
Qed.

Lemma shr_1_nonneg (m : Z) (r s : bool) :
  0 <= m ->
  shr_1 {| shr_m := m; shr_r := r; shr_s := s |}
  = {| shr_m := m / 2; shr_r := Z.odd m; shr_s := r || s |}.
Proof.
  intros Hm. rewrite <- Z.div2_div.
  destruct m as [|[p|p|]|p]; try reflexivity; lia.
Qed.

Lemma located_start (x : Z) :
  located x 0 {| shr_m := x; shr_r := false; shr_s := false |}.
Proof.
  unfold located. cbn [shr_m loc_of_shr_record].
  now rewrite Z.pow_0_r, Z.div_1_r, Z.mod_1_r.
Qed.

Lemma located_step (x j : Z) (mrs : shr_record) :
  0 <= x -> 0 <= j -> located x j mrs -> located x (j + 1) (shr_1 mrs).
Proof.
  intros Hx Hj. destruct mrs as [m r s]. unfold located.
  cbn [shr_m]. intros [Hm Hl].
  assert (P : 0 < 2 ^ j) by (apply Z.pow_pos_nonneg; lia).
  assert (Hm0 : 0 <= m) by (subst m; apply Z.div_pos; lia).
  rewrite (shr_1_nonneg m r s Hm0). cbn [shr_m].
  rewrite Z.pow_add_r, Z.pow_1_r by lia.
  rewrite Z.rem_mul_r, <- Z.div_div, <- Hm, Zmod_odd by lia.
  pose proof (Z.mod_pos_bound x (2 ^ j) P) as B.
  split; [reflexivity|].
  assert (Hs : r || s = negb (x mod 2 ^ j =? 0)).
  { destruct (x mod 2 ^ j =? 0); destruct r, s; cbn in Hl |- *;
      congruence. }
  rewrite Hs.
  destruct (x mod 2 ^ j =? 0) eqn:E.
  - apply Z.eqb_eq in E. rewrite E.
    destruct (Z.odd m); cbn [negb loc_of_shr_record].
    + replace (0 + 2 ^ j * 1 =? 0) with false by (symmetry; apply Z.eqb_neq; lia).
      f_equal. symmetry. apply Z.compare_eq_iff. lia.
    + replace (0 + 2 ^ j * 0 =? 0) with true by (symmetry; apply Z.eqb_eq; lia).
      reflexivity.
  - apply Z.eqb_neq in E.
    destruct (Z.odd m); cbn [negb loc_of_shr_record].
    + replace (x mod 2 ^ j + 2 ^ j * 1 =? 0) with false
        by (symmetry; apply Z.eqb_neq; lia).
      f_equal. symmetry. apply Z.compare_gt_iff. lia.
    + replace (x mod 2 ^ j + 2 ^ j * 0 =? 0) with false
        by (symmetry; apply Z.eqb_neq; lia).
      f_equal. symmetry. apply Z.compare_lt_iff. lia.
Qed.

Lemma located_iter (x : Z) (n : positive) :
  0 <= x ->
  forall (j : Z) (mrs : shr_record),
    0 <= j -> located x j mrs -> located x (j + Z.pos n) (SpecFloat.iter_pos shr_1 n mrs).
Proof.
  intros Hx. induction n as [n IH|n IH|]; intros j mrs Hj H; cbn [SpecFloat.iter_pos].
  - replace (j + Z.pos n~1) with (j + 1 + Z.pos n + Z.pos n) by lia.
    apply IH; [lia|]. apply IH; [lia|]. now apply located_step.
  - replace (j + Z.pos n~0) with (j + Z.pos n + Z.pos n) by lia.
    apply IH; [lia|]. now apply IH.
  - now apply located_step.
Qed.

(** Rounding on the bits shifted out is rounding the quotient. *)
Lemma located_round (x j : Z) (mrs : shr_record) :
  0 <= j -> located x j mrs ->
  round_nearest_even (shr_m mrs) (loc_of_shr_record mrs) = round_half_even x (2 ^ j).
Proof.
  intros Hj [Hm Hl]. rewrite Hl, Hm. unfold round_half_even, round_nearest_even.
  assert (P : 0 < 2 ^ j) by (apply Z.pow_pos_nonneg; lia).
  destruct (x mod 2 ^ j =? 0) eqn:E.
  - apply Z.eqb_eq in E. rewrite E.
    now replace (2 * 0 ?= 2 ^ j) with Lt by (symmetry; apply Z.compare_lt_iff; lia).
  - destruct (2 * (x mod 2 ^ j) ?= 2 ^ j); reflexivity.
Qed.

Lemma fexp_eq (e : Z) : fexp prec emax e = Z.max (e - 53) (-1074).
Proof. reflexivity. Qed.

(** No bit is shifted out of a mantissa that fits. *)
Lemma binary_round_aux_fits (sx : bool) (mx : positive) (ex : Z) :
  fexp prec emax (Z.pos (digits2_pos mx) + ex) - ex <= 0 ->
  binary_round_aux prec emax sx (Z.pos mx) ex loc_Exact
  = if ex <=? emax - prec then S754_finite sx mx ex else S754_infinity sx.
Proof.
  intros K. unfold binary_round_aux, shr_fexp, shr.
  cbn [Zdigits2 shr_record_of_loc].
  destruct (fexp prec emax (Z.pos (digits2_pos mx) + ex) - ex) eqn:D; [| lia |];
    cbn [shr_m loc_of_shr_record round_nearest_even Zdigits2 shr_record_of_loc];
    rewrite D; reflexivity.
Qed.

(** The float of a positive integer [p], when it is finite, has the sign
    asked for and the value of [p] rounded to a multiple of
    [2 ^ int_exponent p]; nothing else but an infinity comes out, and that
    for an integer beyond the range of floats only. *)
Lemma binary_round_int (sx : bool) (p : positive) :
  match binary_round prec emax sx p 0 with
  | S754_finite s m e =>
      s = sx
      /\ exists v, nearest_even v (Z.pos p) (2 ^ int_exponent (Z.pos p))
           /\ Z.pos m * 2 ^ Z.max e 0
              = v * 2 ^ int_exponent (Z.pos p) * 2 ^ Z.max (- e) 0
  | S754_infinity _ => float_range <= Z.pos p
  | _ => False
  end.
Proof.
  unfold binary_round, shl_align, int_exponent.
  change (Z.abs (Z.pos p)) with (Z.pos p).
  pose proof (digits2_pos_bounds p) as B.
  pose proof (digits2_pos_log2 p) as L.
  rewrite fexp_eq.
  set (n := Z.pos (digits2_pos p)) in *.
  assert (Hn : 1 <= n) by (unfold n; lia).
  destruct (Z.max (n + 0 - 53) (-1074) - 0) as [|k|d] eqn:D.
  - (* 53 bits *)
    rewrite binary_round_aux_fits by (rewrite fexp_eq; fold n; lia).
    replace (0 <=? emax - prec) with true by reflexivity.
    split; [reflexivity|]. exists (Z.pos p).
    replace (Z.max 0 (Z.log2 (Z.pos p) - 52)) with 0 by lia.
    split; [apply nearest_even_refl | change (Z.max 0 0) with 0].
    change (Z.max (- 0) 0) with 0. lia.
  - (* more than 53 bits *)
    assert (Hk : n = 53 + Z.pos k) by lia.
    assert (P : 0 < 2 ^ Z.pos k) by (apply Z.pow_pos_nonneg; lia).
    unfold binary_round_aux, shr_fexp at 1. cbn [Zdigits2 shr_record_of_loc].
    rewrite fexp_eq. fold n. rewrite D. cbn [shr].
    pose proof (located_iter (Z.pos p) k ltac:(lia) 0 _ ltac:(lia)
                  (located_start (Z.pos p))) as Hloc.
    rewrite Z.add_0_l in *.
    rewrite (located_round (Z.pos p) (Z.pos k) _ ltac:(lia) Hloc).
    pose proof (round_half_even_nearest (Z.pos p) (2 ^ Z.pos k) P) as Hnear.
    pose proof (round_half_even_bounds (Z.pos p) (2 ^ Z.pos k)) as Hb.
    assert (Hq : 2 ^ 52 <= Z.pos p / 2 ^ Z.pos k < 2 ^ 53).
    { assert (E1 : 2 ^ (n - 1) = 2 ^ Z.pos k * 2 ^ 52)
        by (rewrite <- Z.pow_add_r by lia; f_equal; lia).
      assert (E2 : 2 ^ n = 2 ^ Z.pos k * 2 ^ 53)
        by (rewrite <- Z.pow_add_r by lia; f_equal; lia).
      split.
      - apply Z.div_le_lower_bound; lia.
      - apply Z.div_lt_upper_bound; lia. }
    replace (Z.max 0 (Z.log2 (Z.pos p) - 52)) with (Z.pos k) by lia.
    remember (round_half_even (Z.pos p) (2 ^ Z.pos k)) as m1 eqn:Em1.
    destruct m1 as [|m1|m1]; [lia | | lia].
    unfold shr_fexp. cbn [Zdigits2 shr_record_of_loc]. rewrite fexp_eq.
    destruct (Z.eq_dec (Z.pos m1) (2 ^ 53)) as [Etop|Ntop].
    + (* the rounding carried into a further bit *)
      assert (Em : m1 = 9007199254740992%positive)
        by (change (2 ^ 53) with 9007199254740992 in Etop; congruence).
      subst m1.
      replace (Z.max (Z.pos (digits2_pos 9007199254740992) + Z.pos k - 53) (-1074)
               - Z.pos k) with 1 by (cbn [digits2_pos Pos.succ]; lia).
      cbn [shr SpecFloat.iter_pos shr_1 shr_m].
      destruct (Z.leb_spec (Z.pos k + 1) (emax - prec)) as [_|Hbig].
      2: { unfold emax, prec in Hbig. destruct Hnear as [Hnear _].
           assert (2 ^ 971 <= 2 ^ Z.pos k) by (apply Z.pow_le_mono_r; lia).
           unfold float_range. lia. }
      split; [reflexivity|]. exists (Z.pos 9007199254740992).
      split; [exact Hnear|].
      replace (Z.max (Z.pos k + 1) 0) with (Z.pos k + 1) by lia.
      replace (Z.max (- (Z.pos k + 1)) 0) with 0 by lia.
      rewrite Z.pow_add_r by lia.
      change (2 ^ 1) with 2. change (2 ^ 0) with 1. lia.
    + assert (Hd : Z.pos (digits2_pos m1) = 53)
        by (apply digits2_pos_unique; [change (53 - 1) with 52|]; lia).
      rewrite Hd.
      replace (Z.max (53 + Z.pos k - 53) (-1074) - Z.pos k) with 0 by lia.
      cbn [shr shr_m].
      destruct (Z.leb_spec (Z.pos k) (emax - prec)) as [_|Hbig].
      2: { unfold emax, prec in Hbig. unfold float_range.
           assert (2 ^ 1024 <= 2 ^ (n - 1)) by (apply Z.pow_le_mono_r; lia).
           assert (0 < 2 ^ 970) by reflexivity. lia. }
      split; [reflexivity|]. exists (Z.pos m1). split; [exact Hnear|].
      replace (Z.max (Z.pos k) 0) with (Z.pos k) by lia.
      replace (Z.max (- Z.pos k) 0) with 0 by lia.
      change (2 ^ 0) with 1. lia.
  - (* fewer than 53 bits *)
    assert (Hd : Z.pos (digits2_pos (Pos.iter xO p d)) = 53).
    { apply digits2_pos_unique; [|lia]. rewrite iter_xO.
      assert (P : 0 < 2 ^ Z.pos d) by (apply Z.pow_pos_nonneg; lia).
      assert (E1 : 2 ^ (53 - 1) = 2 ^ (n - 1) * 2 ^ Z.pos d)
        by (rewrite <- Z.pow_add_r by lia; f_equal; lia).
      assert (E2 : 2 ^ 53 = 2 ^ n * 2 ^ Z.pos d)
        by (rewrite <- Z.pow_add_r by lia; f_equal; lia).
      rewrite E1, E2. split.
      - apply Z.mul_le_mono_nonneg_r; lia.
      - apply Z.mul_lt_mono_pos_r; lia. }
    rewrite binary_round_aux_fits by (rewrite fexp_eq, Hd; lia).
    replace (Z.max (n + 0 - 53) (-1074) <=? emax - prec) with true
      by (symmetry; apply Z.leb_le; unfold emax, prec; lia).
    split; [reflexivity|]. exists (Z.pos p).
    replace (Z.max 0 (Z.log2 (Z.pos p) - 52)) with 0 by lia.
    split; [apply nearest_even_refl|].
    rewrite iter_xO.
    replace (Z.max (Z.max (n + 0 - 53) (-1074)) 0) with 0 by lia.
    replace (Z.max (- Z.max (n + 0 - 53) (-1074)) 0) with (Z.pos d) by lia.
    lia.
Qed.

(** [float(z)], when it does not overflow, is a finite float with the sign
    of [z] and the value of [z] rounded to 53 significant bits. *)
Lemma float_of_int_value (z : Z) (f : spec_float) :
  float_of_int z = Ok f ->
  is_finite f = true
  /\ sign_bit f = (z <? 0)
  /\ exists num den v : Z,
       float_fraction f = Some (num, den)
       /\ 0 < den
       /\ nearest_even v (Z.abs z) (2 ^ int_exponent z)
       /\ num = v * 2 ^ int_exponent z * den.
Proof.
  unfold float_of_int, binary_normalize. destruct z as [|p|p].
  - intros [= <-]. repeat split. exists 0, 1, 0.
    split; [reflexivity|]. split; [lia|]. split; [|reflexivity].
    change (int_exponent 0) with 0. apply nearest_even_refl.
  - pose proof (binary_round_int false p) as H.
    destruct (binary_round prec emax false p 0) as [s|s| |s m e];
      try contradiction; [discriminate|].
    intros [= <-]. destruct H as [-> [v [Hv E]]].
    repeat split. exists (Z.pos m * 2 ^ Z.max e 0), (2 ^ Z.max (- e) 0), v.
    repeat split; try exact E; try apply Hv.
    apply Z.pow_pos_nonneg; lia.
  - pose proof (binary_round_int true p) as H.
    destruct (binary_round prec emax true p 0) as [s|s| |s m e];
      try contradiction; [discriminate|].
    intros [= <-]. destruct H as [-> [v [Hv E]]].
    repeat split. exists (Z.pos m * 2 ^ Z.max e 0), (2 ^ Z.max (- e) 0), v.
    repeat split; try exact E; try apply Hv.
    apply Z.pow_pos_nonneg; lia.
Qed.

(** An int within the range of floats has a float. *)
Lemma float_of_int_finite (z : Z) :
  Z.abs z < float_range -> exists f, float_of_int z = Ok f.
Proof.
  unfold float_of_int, binary_normalize. destruct z as [|p|p]; intros Hz.
  - now eexists.
  - pose proof (binary_round_int false p) as H.
    destruct (binary_round prec emax false p 0) as [s|s| |s m e];
      try contradiction; [cbn [Z.abs] in Hz; lia | now eexists].
  - pose proof (binary_round_int true p) as H.
    destruct (binary_round prec emax true p 0) as [s|s| |s m e];
      try contradiction; [|now eexists].
    change (Z.abs (Z.neg p)) with (Z.pos p) in Hz. lia.
Qed.

End FloatOfIntFacts.

Section FormatFacts.

Import PyNum.

(** The text of [q] units of [10 ^ - d]. *)
Lemma fixed_point_value (s : bool) (q : Z) (d : nat) :
  0 <= q ->
  exists ip fp : string,
    fixed_point s q d
    = String (if s then "-"%char else " "%char)
        (ip +:+ match d with
                | O => EmptyString
                | S _ => String "."%char fp
                end)
    /\ ip <> EmptyString
    /\ digits_only ip = true
    /\ no_leading_zero ip = true
    /\ digits_only fp = true
    /\ String.length fp = d
    /\ digits_value ip * 10 ^ Z.of_nat d + digits_value fp = q.
Proof.
  intros Hq.
  assert (P : 0 < 10 ^ Z.of_nat d) by (apply Z.pow_pos_nonneg; lia).
  assert (Hi : 0 <= q / 10 ^ Z.of_nat d) by (apply Z.div_pos; lia).
  exists (PyStr.str_int (q / 10 ^ Z.of_nat d)), (frac_digits d q).
  split; [now destruct s|].
  split; [apply str_int_nonempty|].
  split; [now apply str_int_nonneg_digits|].
  split; [now apply str_int_no_leading_zero|].
  split; [apply frac_digits_digits|].
  split; [apply frac_digits_length|].
  rewrite (str_int_value _ Hi). unfold digits_value. rewrite frac_digits_value.
  pose proof (Z.div_mod q (10 ^ Z.of_nat d) ltac:(lia)). lia.
Qed.

(** The digits of a finite float are its value, rounded. *)
Lemma format_float_value (f : spec_float) (d : nat) (num den : Z) :
  float_fraction f = Some (num, den) ->
  0 < den
  /\ exists q : Z,
       0 <= q
       /\ format_float f d = fixed_point (sign_bit f) q d
       /\ nearest_even q (num * 10 ^ Z.of_nat d) den.
Proof.
  assert (P : 0 < 10 ^ Z.of_nat d) by (apply Z.pow_pos_nonneg; lia).
  destruct f as [s|s| |s m e]; try discriminate; cbn [float_fraction];
    intros [= <- <-].
  - split; [lia|]. exists 0. repeat split; unfold nearest_even; lia.
  - split; [apply Z.pow_pos_nonneg; lia|].
    exists (scaled m e d). split; [apply scaled_nonneg|]. split; [reflexivity|].
    unfold scaled. destruct (0 <=? e) eqn:E.
    + apply Z.leb_le in E.
      replace (Z.max e 0) with e by lia. replace (Z.max (- e) 0) with 0 by lia.
      change (2 ^ 0) with 1. unfold nearest_even. split; lia.
    + apply Z.leb_gt in E.
      replace (Z.max e 0) with 0 by lia. replace (Z.max (- e) 0) with (- e) by lia.
      change (2 ^ 0) with 1. rewrite Z.mul_1_r.
      apply round_half_even_nearest, Z.pow_pos_nonneg; lia.
Qed.

Lemma format_f_ok (x : number) (decimals : Z) (f : spec_float) :
  0 <= decimals <= int_max -> as_float x = Ok f ->
  format_f x decimals = Ok (format_float f (Z.to_nat decimals)).
Proof.
  intros Hd Hf. unfold format_f, ssize_max, int_max in *.
  replace (decimals <? 0) with false by (symmetry; apply Z.ltb_ge; lia).
  replace (9223372036854775807 <? decimals) with false
    by (symmetry; apply Z.ltb_ge; lia).
  rewrite Hf. cbn [orb mbind result_bind].
  now replace (2147483647 <? decimals) with false by (symmetry; apply Z.ltb_ge; lia).
Qed.

Lemma converts_as_float (x : number) :
  converts x -> exists f, as_float x = Ok f.
Proof.
  destruct x as [z|g]; cbn [converts as_float].
  - apply float_of_int_finite.
  - intros _. now exists g.
Qed.

(** A number with a decimal expansion has a finite float. *)
Lemma is_real_as_float (x : number) :
  is_real x = true -> exists f, as_float x = Ok f /\ is_finite f = true.
Proof.
  destruct x as [z|g]; cbn [is_real as_float].
  - intros Hz%Z.ltb_lt. destruct (float_of_int_finite z Hz) as [f Hf].
    exists f. split; [exact Hf | now apply float_of_int_value in Hf].
  - intros Hg. now exists g.
Qed.

(** The text of a number that has a decimal expansion. *)
Lemma format_f_value (x : number) (decimals : Z) :
  0 <= decimals <= int_max -> is_real x = true ->
  exists s, format_f x decimals = Ok s
    /\ decimal_text x (Z.to_nat decimals) s.
Proof.
  intros Hd Hx. destruct (is_real_as_float x Hx) as [f [Ef Hfin]].
  rewrite (format_f_ok x decimals f Hd Ef). eexists; split; [reflexivity|].
  set (d := Z.to_nat decimals).
  assert (P : 0 < 10 ^ Z.of_nat d) by (apply Z.pow_pos_nonneg; lia).
  destruct x as [z|g]; cbn [as_float] in Ef.
  - destruct (float_of_int_value z f Ef) as [_ [Hs [num [den [v [Hf [Hden [Hv ->]]]]]]]].
    destruct (format_float_value f d _ _ Hf) as [_ [q [Hq [-> Hn]]]].
    destruct (fixed_point_value (sign_bit f) q d Hq)
      as [ip [fp [-> [H1 [H2 [H3 [H4 [H5 H6]]]]]]]].
    exists ip, fp, (v * 2 ^ int_exponent z), 1.
    cbn [is_negative]. rewrite <- Hs.
    split; [reflexivity|]. do 5 (split; [assumption|]).
    split; [split; [reflexivity | exists v; split; [exact Hv | reflexivity]]|].
    split; [lia|].
    rewrite H6.
    replace q with (v * 2 ^ int_exponent z * 10 ^ Z.of_nat d);
      [apply nearest_even_refl|].
    symmetry. apply (nearest_even_exact q _ den Hden).
    now replace (v * 2 ^ int_exponent z * 10 ^ Z.of_nat d * den)
      with (v * 2 ^ int_exponent z * den * 10 ^ Z.of_nat d) by lia.
  - injection Ef as ->.
    destruct (float_fraction f) as [[num den]|] eqn:Hf;
      [|destruct f; discriminate].
    destruct (format_float_value f d num den Hf) as [Hden [q [Hq [-> Hn]]]].
    destruct (fixed_point_value (sign_bit f) q d Hq)
      as [ip [fp [-> [H1 [H2 [H3 [H4 [H5 H6]]]]]]]].
    exists ip, fp, num, den. cbn [is_negative float_value].
    split; [reflexivity|]. do 5 (split; [assumption|]).
    split; [exact Hf|]. split; [exact Hden|]. now rewrite H6.
Qed.

End FormatFacts.

Section VectorFacts.

Import PyNum BasicSiemensTool.

Lemma format_f_no_IndexError (x : number) (decimals : Z) :
  format_f x decimals <> Raise IndexError.
Proof.
  unfold format_f.
  destruct ((decimals <? 0) || (ssize_max <? decimals)); [discriminate|].
  destruct (as_float x) as [f|e] eqn:E; cbn [mbind result_bind].
  - destruct (int_max <? decimals); discriminate.
  - destruct x as [z|g]; cbn [as_float] in E; [|discriminate].
    unfold float_of_int in E.
    destruct (binary_normalize prec emax z 0 false); congruence.
Qed.

(** A precision the format specification cannot state. *)
Lemma format_f_unreadable (x : number) (decimals : Z) :
  decimals < 0 \/ ssize_max < decimals -> format_f x decimals = Raise ValueError.
Proof.
  intros H. unfold format_f.
  replace ((decimals <? 0) || (ssize_max <? decimals)) with true; [reflexivity|].
  symmetry. apply orb_true_iff. destruct H; [left|right]; now apply Z.ltb_lt.
Qed.

Lemma vector_to_string_three (index : Z) (a b c : number)
    (rest : list number) (decimals : Z) :
  vector_to_string index (a :: b :: c :: rest) decimals
  = (s0 ← format_f a decimals;
     s1 ← format_f b decimals;
     s2 ← format_f c decimals;
     Ok ("Vector[" +:+ PyStr.str_int index +:+ "] = (" +:+
         s0 +:+ "," +:+ s1 +:+ "," +:+ s2 +:+ ")")).
Proof.
  unfold vector_to_string, getitem. cbn [lookup list_lookup mbind result_bind].
  destruct (format_f a decimals) as [s0|e]; [|reflexivity].
  destruct (format_f b decimals) as [s1|e]; reflexivity.
Qed.

Lemma inf_not_digits (ip rest : string) :
  ip <> EmptyString -> digits_only ip = true -> "inf" <> ip +:+ rest.
Proof.
  intros Hne Hd E. destruct ip as [|c ip]; [now apply Hne|].
  cbn [String.append] in E. injection E as <- _. discriminate.
Qed.

End VectorFacts.

(** C2 as stated fails for a vector of numbers that are not all finite and
    for the negative zero: an infinity and a NaN are written [inf] and
    [nan], which is no fixed-point text, with no fractional digit; and the
    negative zero, which is not a negative value, is written with a minus
    sign. *)
Lemma inf_nan_and_negative_zero_texts :
  BasicSiemensTool.vector_to_string 0
    [PyNum.PyFloat (S754_infinity false); PyNum.PyFloat (S754_zero true);
     PyNum.PyFloat S754_nan] 6
  = Ok "Vector[0] = ( inf,-0.000000, nan)"
  /\ (forall x : PyNum.number, ~ decimal_text x 6 " inf")
  /\ SFeqb (S754_zero true) (S754_zero false) = true
  /\ SFltb (S754_zero true) (S754_zero false) = false.
Proof.
  split; [vm_compute; reflexivity|].
  split; [|split; reflexivity].
  intros x [ip [fp [num [den [E [Hne [Hd _]]]]]]].
  injection E as _ E. exact (inf_not_digits ip _ Hne Hd E).
Qed.

(** C2, amended.  For a precision [0 <= decimals <= 2147483647] and a
    vector of three numbers with a decimal expansion (a float that is
    neither an infinity nor a NaN, an int within the range of floats),
    [vector_to_string] returns [Vector[<index>] = (s0,s1,s2)], where every
    [s_i] is the fixed-point text of its component: the sign position holds
    a minus sign when the sign of the number is negative (which includes the
    negative zero) and a space otherwise; then come the integer digits,
    without a superfluous zero, and behind a point exactly [decimals] digits
    (no point for [decimals = 0]); and the digits are the value of the
    number as a float, rounded to [decimals] decimals, to the even last
    digit when the value lies halfway.  The float of an int is the int
    rounded to 53 significant bits.  In particular the vectors [[0, 0, 0]]
    and [[-0.57735, 0.57735, 0.57735]] give the two lines of the format's
    example. *)
Theorem vector_to_string_layout :
  (forall (index : Z) (a b c : PyNum.number) (decimals : Z),
     0 <= decimals <= 2147483647 ->
     is_real a = true -> is_real b = true -> is_real c = true ->
     exists s0 s1 s2 : string,
       BasicSiemensTool.vector_to_string index [a; b; c] decimals
       = Ok ("Vector[" +:+ PyStr.str_int index +:+ "] = (" +:+
             s0 +:+ "," +:+ s1 +:+ "," +:+ s2 +:+ ")")
       /\ decimal_text a (Z.to_nat decimals) s0
       /\ decimal_text b (Z.to_nat decimals) s1
       /\ decimal_text c (Z.to_nat decimals) s2)
  /\ BasicSiemensTool.vector_to_string 0
       [PyNum.PyInt 0; PyNum.PyInt 0; PyNum.PyInt 0] 6
     = Ok "Vector[0] = ( 0.000000, 0.000000, 0.000000)"
  /\ BasicSiemensTool.vector_to_string 1
       [ PyNum.PyFloat (PyNum.float_lit (-57735) 100000);
         PyNum.PyFloat (PyNum.float_lit 57735 100000);
         PyNum.PyFloat (PyNum.float_lit 57735 100000) ] 6
     = Ok "Vector[1] = (-0.577350, 0.577350, 0.577350)".
Proof.
  split; [|split; vm_compute; reflexivity].
  intros index a b c decimals Hd Ha Hb Hc.
  destruct (format_f_value a decimals Hd Ha) as [s0 [E0 L0]].
  destruct (format_f_value b decimals Hd Hb) as [s1 [E1 L1]].
  destruct (format_f_value c decimals Hd Hc) as [s2 [E2 L2]].
  exists s0, s1, s2. split; [|auto].
  rewrite vector_to_string_three, E0, E1, E2. reflexivity.
Qed.

Lemma vector_to_string_layout_witness :
  exists s0 s1 s2 : string,
    BasicSiemensTool.vector_to_string 1
      [ PyNum.PyFloat (PyNum.float_lit (-57735) 100000);
        PyNum.PyFloat (PyNum.float_lit 57735 100000);
        PyNum.PyInt 3 ] 2
    = Ok ("Vector[" +:+ PyStr.str_int 1 +:+ "] = (" +:+
          s0 +:+ "," +:+ s1 +:+ "," +:+ s2 +:+ ")")
    /\ decimal_text (PyNum.PyFloat (PyNum.float_lit (-57735) 100000)) (Z.to_nat 2) s0
    /\ decimal_text (PyNum.PyFloat (PyNum.float_lit 57735 100000)) (Z.to_nat 2) s1
    /\ decimal_text (PyNum.PyInt 3) (Z.to_nat 2) s2.
Proof.
  apply (proj1 vector_to_string_layout 1
           (PyNum.PyFloat (PyNum.float_lit (-57735) 100000))
           (PyNum.PyFloat (PyNum.float_lit 57735 100000))
           (PyNum.PyInt 3) 2);
    [lia | vm_compute; reflexivity ..].
Defined.




(** C10.  Two vectors of three or more components that agree on the
    components 0, 1 and 2 give the same result, for every index and every
    [decimals]; that result is never the [IndexError] of a rejected vector. *)
Theorem vector_to_string_first_three
    (index decimals : Z) (v w : list PyNum.number) :
  (3 <= length v)%nat -> (3 <= length w)%nat ->
  v !! 0%nat = w !! 0%nat ->
  v !! 1%nat = w !! 1%nat ->
  v !! 2%nat = w !! 2%nat ->
  BasicSiemensTool.vector_to_string index v decimals
  = BasicSiemensTool.vector_to_string index w decimals
  /\ BasicSiemensTool.vector_to_string index v decimals <> Raise IndexError.
Proof.
  intros Hv Hw H0 H1 H2.
  destruct v as [|a [|b [|c v']]]; simpl in Hv; try lia.
  destruct w as [|a' [|b' [|c' w']]]; simpl in Hw; try lia.
  simpl in H0, H1, H2.
  injection H0 as <-. injection H1 as <-. injection H2 as <-.
  rewrite !vector_to_string_three. split; [reflexivity|].
  destruct (PyNum.format_f a decimals) as [s0|e] eqn:Ea;
    [|intros [= ->]; now apply (format_f_no_IndexError a decimals)].
  destruct (PyNum.format_f b decimals) as [s1|e] eqn:Eb;
    [|intros [= ->]; now apply (format_f_no_IndexError b decimals)].
  destruct (PyNum.format_f c decimals) as [s2|e] eqn:Ec;
    [|intros [= ->]; now apply (format_f_no_IndexError c decimals)].
  discriminate.
Qed.

Lemma vector_to_string_first_three_witness :
  BasicSiemensTool.vector_to_string 0
    [PyNum.PyInt 0; PyNum.PyInt 1; PyNum.PyInt 2; PyNum.PyInt 7] 6
  = BasicSiemensTool.vector_to_string 0
      [PyNum.PyInt 0; PyNum.PyInt 1; PyNum.PyInt 2] 6
  /\ BasicSiemensTool.vector_to_string 0
       [PyNum.PyInt 0; PyNum.PyInt 1; PyNum.PyInt 2; PyNum.PyInt 7] 6
     <> Raise IndexError.
Proof.
  apply vector_to_string_first_three; simpl; (lia || reflexivity).
Defined.

(** * Further properties *)

(** ** The comment line and the length of the header *)

Section CommentFacts.

Variables (self : tool) (current_time : string) (filename : pyfile).
Variables (n_dims : Z) (b_values : pyseq).

Let header : list string :=
  BasicSiemensTool.construct_header self current_time filename n_dims b_values.

Lemma header_with_comment (c : string) :
  options self !! "Comment" = Some c -> c <> EmptyString ->
  header
  = [ BasicSiemensTool.separator;
      "# File: " +:+ directory self +:+ file_name filename;
      "# Date: " +:+ current_time;
      "# Description: " +:+
        dict_get (options self) "description"
          "Vector file for Siemens 'free' diffusion mode.";
      "b-values: " +:+ str_seq b_values;
      "number dimensions: " +:+ PyStr.str_int n_dims;
      "Comment: " +:+ c;
      BasicSiemensTool.separator;
      marker (len b_values * n_dims) ] ++ header_bottom self.
Proof.
  intros Hc Hne. unfold header. rewrite construct_header_eq.
  unfold header_top, comment_lines. rewrite Hc.
  destruct c; [congruence | reflexivity].
Qed.

Lemma header_without_comment :
  options self !! "Comment" = None \/ options self !! "Comment" = Some EmptyString ->
  header
  = [ BasicSiemensTool.separator;
      "# File: " +:+ directory self +:+ file_name filename;
      "# Date: " +:+ current_time;
      "# Description: " +:+
        dict_get (options self) "description"
          "Vector file for Siemens 'free' diffusion mode.";
      "b-values: " +:+ str_seq b_values;
      "number dimensions: " +:+ PyStr.str_int n_dims;
      BasicSiemensTool.separator;
      marker (len b_values * n_dims) ] ++ header_bottom self.
Proof.
  intros H. unfold header. rewrite construct_header_eq.
  unfold header_top, comment_lines. now destruct H as [-> | ->].
Qed.

End CommentFacts.

(** X1.  The comment line.  When the option ["Comment"] holds a non-empty
    text, the header has eleven lines and exactly one of them starts with
    [Comment: ]; it is the seventh, between the dimension line and the second
    separator, and the marker is the ninth.  When the option is missing or
    empty, the header has ten lines, none of them a comment line, and the
    marker is the eighth. *)
Theorem header_comment_line
    (self : tool) (current_time : string) (filename : pyfile)
    (n_dims : Z) (b_values : pyseq) :
  let header :=
    BasicSiemensTool.construct_header self current_time filename n_dims b_values in
  (forall c : string,
     options self !! "Comment" = Some c -> c <> EmptyString ->
     length header = 11%nat
     /\ header !! 6%nat = Some ("Comment: " +:+ c)
     /\ (forall (i : nat) (line : string),
           header !! i = Some line ->
           PyStr.startswith line "Comment: " = true -> i = 6%nat)
     /\ header !! 8%nat
        = Some ("[directions=" +:+ PyStr.str_int (len b_values * n_dims) +:+ "]"))
  /\ (options self !! "Comment" = None
      \/ options self !! "Comment" = Some EmptyString ->
      length header = 10%nat
      /\ Forall (fun line => PyStr.startswith line "Comment: " = false) header
      /\ header !! 7%nat
         = Some ("[directions=" +:+ PyStr.str_int (len b_values * n_dims) +:+ "]")).
Proof.
  intros header. split.
  - intros c Hc Hne. unfold header.
    rewrite (header_with_comment self current_time filename n_dims b_values c Hc Hne).
    split; [reflexivity|]. split; [reflexivity|]. split; [|reflexivity].
    intros i line Hi Hline.
    do 11 (destruct i as [|i];
           [ first [ reflexivity
                   | injection Hi as <-; discriminate Hline ] |]).
    discriminate Hi.
  - intros H. unfold header.
    rewrite (header_without_comment self current_time filename n_dims b_values H).
    split; [reflexivity|]. split; [|reflexivity].
    repeat constructor.
Qed.

Lemma header_comment_line_witness :
  length (BasicSiemensTool.construct_header
            (Tool (PyList [0; 1000]) 3 {["Comment" := "phantom scan"]})
            "Wed Jan 15 14:32:07 2025" FNone 3 (PyList [0; 1000])) = 11%nat
  /\ BasicSiemensTool.construct_header
       (Tool (PyList [0; 1000]) 3 {["Comment" := "phantom scan"]})
       "Wed Jan 15 14:32:07 2025" FNone 3 (PyList [0; 1000]) !! 6%nat
     = Some "Comment: phantom scan".
Proof.
  pose proof (proj1 (header_comment_line
                       (Tool (PyList [0; 1000]) 3 {["Comment" := "phantom scan"]})
                       "Wed Jan 15 14:32:07 2025" FNone 3 (PyList [0; 1000])))
    as H.
  destruct (H "phantom scan") as [H1 [H2 _]];
    [vm_compute; reflexivity | discriminate |].
  split; [exact H1 | exact H2].
Defined.

(** ** Which options the header reads *)

(** X2.  The header depends on the options through five keys only:
    ["default_path"], ["description"], ["Comment"], ["CoordinateSystem"]
    and ["Normalisation"], spelled so.  Two tools whose options agree on
    them get the same header; every other key, ["Description"] with a
    capital as much as ["newline"], changes nothing. *)
Theorem construct_header_reads_five_options
    (self other : tool) (current_time : string) (filename : pyfile)
    (n_dims : Z) (b_values : pyseq) :
  Forall (fun key => options self !! key = options other !! key) header_options ->
  BasicSiemensTool.construct_header self current_time filename n_dims b_values
  = BasicSiemensTool.construct_header other current_time filename n_dims b_values.
Proof.
  unfold header_options. intros H.
  repeat match type of H with
         | Forall _ (_ :: _) =>
             let E := fresh "E" in
             apply Forall_cons in H as [E H]
         end.
  unfold BasicSiemensTool.construct_header, dict_get.
  now rewrite E, E0, E1, E2, E3.
Qed.

Lemma construct_header_reads_five_options_witness :
  BasicSiemensTool.construct_header
    (Tool (PyList [0; 1000]) 3
       (<["Description" := "My vectors"]> {["newline" := PyStr.CRLF]}))
    "Wed Jan 15 14:32:07 2025" FNone 3 (PyList [0; 1000])
  = BasicSiemensTool.construct_header
      (Tool (PyList [0; 1000]) 3 ∅)
      "Wed Jan 15 14:32:07 2025" FNone 3 (PyList [0; 1000]).
Proof.
  apply construct_header_reads_five_options.
  repeat constructor; vm_compute; reflexivity.
Defined.

(** ** What a legacy tool changes in the header *)

(** X3.  The two options the legacy constructor sets are set over whatever
    was there, and nothing else is touched.  So the header of a legacy tool
    is the header of the tool before [set_options] with one line replaced:
    the file-path line, which names the legacy directory even when a
    ["default_path"] was given. *)
Theorem legacy_header_changes_file_line
    (self : tool) (current_time : string) (filename : pyfile)
    (n_dims : Z) (b_values : pyseq) :
  (forall key : string,
     options (LegacySiemensTool.set_options self) !! key
     = if decide (key = "default_path")
       then Some "C:\\Medcom\\MriCustomer\\seq\\"
       else if decide (key = "newline") then Some PyStr.CRLF
       else options self !! key)
  /\ BasicSiemensTool.construct_header (LegacySiemensTool.set_options self)
       current_time filename n_dims b_values
     = <[1%nat := "# File: " +:+ "C:\\Medcom\\MriCustomer\\seq\\" +:+ file_name filename]>
         (BasicSiemensTool.construct_header self
            current_time filename n_dims b_values).
Proof.
  assert (Hkeys : forall key : string,
             options (LegacySiemensTool.set_options self) !! key
             = if decide (key = "default_path")
               then Some "C:\\Medcom\\MriCustomer\\seq\\"
               else if decide (key = "newline") then Some PyStr.CRLF
               else options self !! key).
  { intros key. simpl. rewrite lookup_insert.
    destruct (decide ("default_path" = key)) as [<-|Hd].
    - now rewrite decide_True.
    - rewrite decide_False by congruence. rewrite lookup_insert.
      destruct (decide ("newline" = key)) as [<-|Hn].
      + now rewrite decide_True.
      + now rewrite decide_False by congruence. }
  split; [exact Hkeys|].
  rewrite !construct_header_eq. unfold header_top, header_bottom, comment_lines,
    directory, dict_get.
  rewrite !Hkeys. reflexivity.
Qed.

(** ** What [save] writes whatever the tool holds *)

(** X4.  [save] passes only the file name to [construct_header].  Whatever
    b-values and dimensions the tool was built with, and however many rows
    are written, the header saved to a path the platform opens states the
    defaults: the b-values [(0, 1000)], three dimensions and six directions
    (for the legacy variant the bare [6]]).  The file holds the lines as a
    text file stores them, with the line separator of the platform for every
    line feed. *)
Theorem save_states_default_count
    (os : platform) (self : tool) (current_time : string)
    (rows : list (list PyNum.number)) (p : string) :
  open_w os p = Ok tt ->
  exists (top bottom lines : list string),
    fst (BasicSiemensTool.save os self current_time rows (FPath p))
    = Some (stored (linesep os)
              (terminated (BasicSiemensTool.newline self)
                 (top ++ "[directions=6]" :: bottom ++ lines)))
    /\ fst (LegacySiemensTool.save os self current_time rows (FPath p))
       = Some (stored (linesep os)
                 (terminated (BasicSiemensTool.newline self)
                    (top ++ "6]" :: bottom ++ lines)))
    /\ top !! 4%nat = Some "b-values: (0, 1000)"
    /\ top !! 5%nat = Some "number dimensions: 3"
    /\ length bottom = 2%nat
    /\ (length lines <= length rows)%nat.
Proof.
  intros Hopen.
  exists (header_top self current_time (FPath p) 3 (PyTuple [0; 1000])),
    (header_bottom self), (rendered_rows 0 rows).
  unfold BasicSiemensTool.save, LegacySiemensTool.save.
  rewrite !write_fst, strip_directions_header, construct_header_eq.
  cbn [opens]. rewrite Hopen, <- !app_assoc.
  repeat split.
  generalize 0. induction rows as [|row rows IH]; intros k; simpl; [lia|].
  destruct (BasicSiemensTool.vector_to_string k row _); simpl; [|lia].
  specialize (IH (k + 1)). lia.
Qed.

Lemma save_states_default_count_witness :
  exists (top bottom lines : list string),
    fst (BasicSiemensTool.save (platform_of PyStr.LF) (Tool (PyList [5]) 7 ∅)
           "Wed Jan 15 14:32:07 2025" [] (FPath "MyVectorSet.dvs"))
    = Some (stored PyStr.LF
              (terminated PyStr.LF (top ++ "[directions=6]" :: bottom ++ lines)))
    /\ top !! 4%nat = Some "b-values: (0, 1000)"
    /\ top !! 5%nat = Some "number dimensions: 3".
Proof.
  destruct (save_states_default_count (platform_of PyStr.LF)
              (Tool (PyList [5]) 7 ∅) "Wed Jan 15 14:32:07 2025" []
              "MyVectorSet.dvs" eq_refl)
    as [top [bottom [lines [H1 [_ [H3 [H4 _]]]]]]].
  exists top, bottom, lines. split; [exact H1|]. split; [exact H3 | exact H4].
Defined.

(** ** Saving to something that is no path *)

(** X5.  A [save] whose file name is [None] or a [str] creates no file and
    ends with [AttributeError], for both variants and whatever the rows; that
    includes the default file name of the current variant's [save], the
    empty [str]. *)
Theorem save_needs_a_path
    (os : platform) (self : tool) (current_time : string)
    (rows : list (list PyNum.number)) (filename : pyfile) :
  is_path filename = false ->
  BasicSiemensTool.save os self current_time rows filename
  = (None, Raise AttributeError)
  /\ LegacySiemensTool.save os self current_time rows filename
     = (None, Raise AttributeError).
Proof.
  destruct filename as [|s|p]; [| |discriminate]; intros _; split; reflexivity.
Qed.

Lemma save_needs_a_path_witness :
  BasicSiemensTool.save (platform_of PyStr.LF) (Tool (PyList [0; 1000]) 3 ∅)
    "Wed Jan 15 14:32:07 2025"
    [[PyNum.PyInt 1; PyNum.PyInt 0; PyNum.PyInt 0]]
    BasicSiemensTool.default_filename
  = (None, Raise AttributeError)
  /\ LegacySiemensTool.save (platform_of PyStr.LF) (Tool (PyList [0; 1000]) 3 ∅)
       "Wed Jan 15 14:32:07 2025"
       [[PyNum.PyInt 1; PyNum.PyInt 0; PyNum.PyInt 0]]
       BasicSiemensTool.default_filename
     = (None, Raise AttributeError).
Proof.
  apply save_needs_a_path. reflexivity.
Defined.

(** ** The exceptions of [vector_to_string] *)

Section ExceptionFacts.

Import PyNum BasicSiemensTool.

Lemma format_f_negative (x : number) (decimals : Z) :
  decimals < 0 -> format_f x decimals = Raise ValueError.
Proof. intros H. apply format_f_unreadable. now left. Qed.

Lemma format_f_exn (x : number) (decimals : Z) (e : exn) :
  decimals <= int_max ->
  format_f x decimals = Raise e ->
  (e = ValueError /\ decimals < 0) \/ (e = OverflowError /\ 0 <= decimals).
Proof.
  intros Hmax. unfold format_f, ssize_max, int_max in *.
  destruct (Z.ltb_spec decimals 0) as [Hd|Hd]; cbn [orb].
  - intros [= <-]. now left.
  - replace (9223372036854775807 <? decimals) with false
      by (symmetry; apply Z.ltb_ge; lia).
    replace (2147483647 <? decimals) with false
      by (symmetry; apply Z.ltb_ge; lia).
    destruct x as [z|f]; cbn [as_float mbind result_bind]; [|discriminate].
    unfold float_of_int.
    destruct (binary_normalize prec emax z 0 false);
      cbn [mbind result_bind]; try discriminate.
    intros [= <-]. now right.
Qed.

Lemma vector_to_string_exn (index : Z) (vector : list number) (decimals : Z)
    (e : exn) :
  decimals <= int_max ->
  vector_to_string index vector decimals = Raise e ->
  (e = IndexError /\ (length vector < 3)%nat)
  \/ (e = ValueError /\ decimals < 0 /\ vector <> [])
  \/ (e = OverflowError /\ 0 <= decimals /\ vector <> []).
Proof.
  intros Hmax. unfold vector_to_string, getitem.
  destruct vector as [|a [|b [|c rest]]];
    cbn [lookup list_lookup mbind result_bind length].
  - intros [= <-]. left. split; [reflexivity | lia].
  - destruct (format_f a decimals) as [s0|e0] eqn:Ea.
    + intros [= <-]. left. split; [reflexivity | lia].
    + intros [= <-]. right.
      destruct (format_f_exn _ _ _ Hmax Ea) as [[-> H]|[-> H]]; [left | right];
        repeat split; auto; discriminate.
  - destruct (format_f a decimals) as [s0|e0] eqn:Ea.
    + destruct (format_f b decimals) as [s1|e1] eqn:Eb.
      * intros [= <-]. left. split; [reflexivity | lia].
      * intros [= <-]. right.
        destruct (format_f_exn _ _ _ Hmax Eb) as [[-> H]|[-> H]]; [left | right];
          repeat split; auto; discriminate.
    + intros [= <-]. right.
      destruct (format_f_exn _ _ _ Hmax Ea) as [[-> H]|[-> H]]; [left | right];
        repeat split; auto; discriminate.
  - destruct (format_f a decimals) as [s0|e0] eqn:Ea.
    + destruct (format_f b decimals) as [s1|e1] eqn:Eb.
      * destruct (format_f c decimals) as [s2|e2] eqn:Ec; [discriminate|].
        intros [= <-]. right.
        destruct (format_f_exn _ _ _ Hmax Ec) as [[-> H]|[-> H]]; [left | right];
          repeat split; auto; discriminate.
      * intros [= <-]. right.
        destruct (format_f_exn _ _ _ Hmax Eb) as [[-> H]|[-> H]]; [left | right];
          repeat split; auto; discriminate.
    + intros [= <-]. right.
      destruct (format_f_exn _ _ _ Hmax Ea) as [[-> H]|[-> H]]; [left | right];
        repeat split; auto; discriminate.
Qed.

End ExceptionFacts.

(** X6.  Which exception [vector_to_string] raises, for a precision within
    the range of the float formatter ([decimals] at most [2^31 - 1]; a
    larger one is refused with [ValueError] once the component is a float).
    The empty vector gives [IndexError] whatever the precision.  A negative
    precision gives [ValueError] for every vector that is not empty, short
    or not, since the first component is formatted before the second is
    looked up; and [ValueError] arises in no other way.  [IndexError] is
    raised for short vectors only, and the only other exception is the
    [OverflowError] of an int beyond the floats. *)
Theorem vector_to_string_exceptions
    (index : Z) (vector : list PyNum.number) (decimals : Z) :
  decimals <= 2147483647 ->
  (vector = [] ->
   BasicSiemensTool.vector_to_string index vector decimals = Raise IndexError)
  /\ (BasicSiemensTool.vector_to_string index vector decimals = Raise ValueError
      <-> vector <> [] /\ decimals < 0)
  /\ (BasicSiemensTool.vector_to_string index vector decimals = Raise IndexError ->
      (length vector < 3)%nat)
  /\ (forall e : exn,
        BasicSiemensTool.vector_to_string index vector decimals = Raise e ->
        e = IndexError \/ e = ValueError \/ e = OverflowError).
Proof.
  intros Hmax.
  split; [now intros ->|].
  split; [split|split].
  - intros H. apply (vector_to_string_exn _ _ _ _ Hmax) in H.
    destruct H as [[H _]|[[_ [H1 H2]]|[H _]]]; try discriminate. now split.
  - intros [Hne Hd]. destruct vector as [|a rest]; [congruence|].
    unfold BasicSiemensTool.vector_to_string, BasicSiemensTool.getitem.
    cbn [lookup list_lookup mbind result_bind].
    now rewrite (format_f_negative a decimals Hd).
  - intros H. apply (vector_to_string_exn _ _ _ _ Hmax) in H.
    destruct H as [[_ H]|[[H _]|[H _]]]; [exact H | discriminate..].
  - intros e H. apply (vector_to_string_exn _ _ _ _ Hmax) in H.
    destruct H as [[-> _]|[[-> _]|[-> _]]]; auto.
Qed.

Lemma vector_to_string_exceptions_witness :
  BasicSiemensTool.vector_to_string 0 [PyNum.PyInt 1] (-1) = Raise ValueError.
Proof.
  apply (proj1 (proj2 (vector_to_string_exceptions 0 [PyNum.PyInt 1] (-1)
                         ltac:(lia)))).
  split; [discriminate | lia].
Defined.

(** ** Rows that are written and rows that are not *)

Section RowFacts.

Import PyNum BasicSiemensTool.

Variable sep : string.
Variable self : tool.

Lemma row_ok_rendered (row : list number) (index : Z) :
  row_ok row -> exists s, vector_to_string index row default_decimals = Ok s.
Proof.
  intros (a & b & c & rest & -> & [fa Ha]%converts_as_float
            & [fb Hb]%converts_as_float & [fc Hc]%converts_as_float).
  rewrite vector_to_string_three.
  rewrite (format_f_ok a _ fa), (format_f_ok b _ fb), (format_f_ok c _ fc);
    try assumption; try (unfold default_decimals, int_max; lia).
  eexists. reflexivity.
Qed.

Lemma rendered_rows_ok (rows : list (list number)) :
  Forall row_ok rows ->
  forall index : Z, length (rendered_rows index rows) = length rows.
Proof.
  induction 1 as [|row rows Hrow _ IH]; intros index; simpl; [reflexivity|].
  destruct (row_ok_rendered row index Hrow) as [s ->]. simpl. now rewrite IH.
Qed.

(** The line of every accepted row is the text of that row, at the place of
    the row. *)
Lemma rendered_rows_row (rows : list (list number)) (i : nat)
    (row : list number) :
  Forall row_ok rows -> rows !! i = Some row ->
  exists s, rendered_rows 0 rows !! i = Some s
    /\ vector_to_string (Z.of_nat i) row default_decimals = Ok s.
Proof.
  intros Hrows Hi.
  assert (Hlt : (i < length (rendered_rows 0 rows))%nat)
    by (rewrite (rendered_rows_ok rows Hrows); now apply lookup_lt_Some in Hi).
  destruct (lookup_lt_is_Some_2 _ _ Hlt) as [s Hs].
  exists s. split; [exact Hs|].
  destruct (rendered_rows_lookup _ _ _ _ Hs) as [row' [Hrow' Hv]].
  rewrite Hi in Hrow'. injection Hrow' as <-. exact Hv.
Qed.

(** The rows behind a rejected row leave no line. *)
Lemma rendered_rows_stop (good : list (list number)) (bad : list number)
    (rest : list (list number)) (e : exn) :
  forall index : Z,
    vector_to_string (index + Z.of_nat (length good)) bad default_decimals
    = Raise e ->
    rendered_rows index (good ++ bad :: rest) = rendered_rows index good.
Proof.
  induction good as [|row good IH]; intros index Hbad.
  - simpl in *. rewrite Z.add_0_r in Hbad. now rewrite Hbad.
  - cbn [app rendered_rows].
    destruct (vector_to_string index row default_decimals); [|reflexivity].
    f_equal. apply IH. rewrite <- Hbad. f_equal. simpl length. lia.
Qed.

Lemma write_rows_ok (rows : list (list number)) :
  Forall row_ok rows ->
  forall (index : Z) (file : string),
    write_rows sep self index rows file
    = (file +:+ stored sep
                  (terminated (newline self) (rendered_rows index rows)),
       Ok tt).
Proof.
  intros Hrows index file.
  rewrite (surjective_pairing (write_rows sep self index rows file)),
    write_rows_eq.
  f_equal. revert index file.
  induction Hrows as [|row rows Hrow _ IH]; intros index file;
    cbn [write_rows]; [reflexivity|].
  destruct (row_ok_rendered row index Hrow) as [s ->]. apply IH.
Qed.

Lemma write_rows_stop (good : list (list number)) (bad : list number)
    (rest : list (list number)) (e : exn) :
  Forall row_ok good ->
  forall (index : Z) (file : string),
    vector_to_string (index + Z.of_nat (length good)) bad default_decimals
    = Raise e ->
    write_rows sep self index (good ++ bad :: rest) file
    = (file +:+ stored sep
                  (terminated (newline self) (rendered_rows index good)),
       Raise e).
Proof.
  intros Hgood index file Hbad.
  rewrite (surjective_pairing (write_rows sep self index _ file)),
    write_rows_eq, (rendered_rows_stop good bad rest e index Hbad).
  f_equal. revert index file Hbad.
  induction Hgood as [|row good Hrow _ IH]; intros index file Hbad.
  - cbn [app write_rows]. simpl in Hbad. rewrite Z.add_0_r in Hbad.
    now rewrite Hbad.
  - cbn [app write_rows].
    destruct (row_ok_rendered row index Hrow) as [s ->]. apply IH.
    rewrite <- Hbad. f_equal. simpl length. lia.
Qed.

End RowFacts.

(** X7.  When every row has three components or more, the first three of
    them floats or ints within the range of floats, a [save] to a path the
    platform opens returns normally and the file holds the header lines and
    one vector line per row: the line at the place of a row is the text
    [vector_to_string] gives for that row and its index.  So for both
    variants; the file holds the lines as a text file stores them, with the
    line separator of the platform for every line feed. *)
Theorem save_writes_every_row
    (os : platform) (self : tool) (current_time : string)
    (rows : list (list PyNum.number)) (p : string) :
  open_w os p = Ok tt ->
  Forall row_ok rows ->
  exists lines : list string,
    length lines = length rows
    /\ (forall (i : nat) (row : list PyNum.number),
          rows !! i = Some row ->
          exists s : string,
            lines !! i = Some s
            /\ BasicSiemensTool.vector_to_string (Z.of_nat i) row 6 = Ok s)
    /\ BasicSiemensTool.save os self current_time rows (FPath p)
       = (Some (stored (linesep os)
                  (terminated (BasicSiemensTool.newline self)
                     (BasicSiemensTool.construct_header self current_time (FPath p)
                        3 (PyTuple [0; 1000]) ++ lines))),
          Ok tt)
    /\ LegacySiemensTool.save os self current_time rows (FPath p)
       = (Some (stored (linesep os)
                  (terminated (BasicSiemensTool.newline self)
                     (LegacySiemensTool.strip_directions
                        (BasicSiemensTool.construct_header self current_time
                           (FPath p) 3 (PyTuple [0; 1000])) ++ lines))),
          Ok tt).
Proof.
  intros Hopen Hrows. exists (rendered_rows 0 rows).
  split; [now apply rendered_rows_ok|].
  split; [intros i row Hi; now apply rendered_rows_row|].
  unfold BasicSiemensTool.save, LegacySiemensTool.save, BasicSiemensTool.write.
  rewrite Hopen, !write_header_eq, !(write_rows_ok _ self rows Hrows),
    !terminated_app, !stored_app.
  split; reflexivity.
Qed.

Lemma save_writes_every_row_witness :
  exists lines : list string,
    length lines = 2%nat
    /\ lines !! 1%nat = Some "Vector[1] = (-0.577350, 0.577350, 0.577350)"
    /\ BasicSiemensTool.save (platform_of PyStr.LF) (Tool (PyList [0; 1000]) 3 ∅)
         "Wed Jan 15 14:32:07 2025"
         [ [PyNum.PyInt 0; PyNum.PyInt 0; PyNum.PyInt 0];
           [PyNum.PyFloat (PyNum.float_lit (-57735) 100000);
            PyNum.PyFloat (PyNum.float_lit 57735 100000);
            PyNum.PyFloat (PyNum.float_lit 57735 100000)] ]
         (FPath "MyVectorSet.dvs")
       = (Some (stored PyStr.LF
                  (terminated PyStr.LF
                     (BasicSiemensTool.construct_header (Tool (PyList [0; 1000]) 3 ∅)
                        "Wed Jan 15 14:32:07 2025" (FPath "MyVectorSet.dvs")
                        3 (PyTuple [0; 1000]) ++ lines))),
          Ok tt).
Proof.
  destruct (save_writes_every_row (platform_of PyStr.LF)
              (Tool (PyList [0; 1000]) 3 ∅)
              "Wed Jan 15 14:32:07 2025"
              [ [PyNum.PyInt 0; PyNum.PyInt 0; PyNum.PyInt 0];
                [PyNum.PyFloat (PyNum.float_lit (-57735) 100000);
                 PyNum.PyFloat (PyNum.float_lit 57735 100000);
                 PyNum.PyFloat (PyNum.float_lit 57735 100000)] ]
              "MyVectorSet.dvs" eq_refl) as [lines [Hlen [Hrow [Hsave _]]]].
  - repeat constructor; do 4 eexists;
      (split; [reflexivity|]); repeat split.
  - exists lines. split; [exact Hlen|]. split; [|exact Hsave].
    destruct (Hrow 1%nat _ eq_refl) as [s [Hs Hv]].
    rewrite Hs. f_equal.
    assert (E : Ok s = Ok "Vector[1] = (-0.577350, 0.577350, 0.577350)")
      by (rewrite <- Hv; vm_compute; reflexivity).
    now injection E.
Defined.

(** X8.  When a row is rejected after rows that are accepted, [save] to a
    path the platform opens ends with the exception of that row; the file
    then holds the header lines and the vector lines of the rows before it,
    each the text [vector_to_string] gives for its row and index and each
    with its terminator, and nothing of the rejected row or of the rows
    behind it.  The file holds the lines as a text file stores them, with
    the line separator of the platform for every line feed. *)
Theorem save_stops_at_rejected_row
    (os : platform) (self : tool) (current_time : string) (p : string)
    (good : list (list PyNum.number)) (bad : list PyNum.number)
    (rest : list (list PyNum.number)) (e : exn) :
  open_w os p = Ok tt ->
  Forall row_ok good ->
  BasicSiemensTool.vector_to_string (Z.of_nat (length good)) bad 6 = Raise e ->
  exists lines : list string,
    length lines = length good
    /\ (forall (i : nat) (row : list PyNum.number),
          good !! i = Some row ->
          exists s : string,
            lines !! i = Some s
            /\ BasicSiemensTool.vector_to_string (Z.of_nat i) row 6 = Ok s)
    /\ BasicSiemensTool.save os self current_time (good ++ bad :: rest) (FPath p)
       = (Some (stored (linesep os)
                  (terminated (BasicSiemensTool.newline self)
                     (BasicSiemensTool.construct_header self current_time (FPath p)
                        3 (PyTuple [0; 1000]) ++ lines))),
          Raise e)
    /\ LegacySiemensTool.save os self current_time (good ++ bad :: rest)
         (FPath p)
       = (Some (stored (linesep os)
                  (terminated (BasicSiemensTool.newline self)
                     (LegacySiemensTool.strip_directions
                        (BasicSiemensTool.construct_header self current_time
                           (FPath p) 3 (PyTuple [0; 1000])) ++ lines))),
          Raise e).
Proof.
  intros Hopen Hgood Hbad. exists (rendered_rows 0 good).
  split; [now apply rendered_rows_ok|].
  split; [intros i row Hi; now apply rendered_rows_row|].
  unfold BasicSiemensTool.save, LegacySiemensTool.save, BasicSiemensTool.write.
  rewrite Hopen, !write_header_eq,
    !(write_rows_stop _ self good bad rest e Hgood 0 _ Hbad),
    !terminated_app, !stored_app.
  split; reflexivity.
Qed.

Lemma save_stops_at_rejected_row_witness :
  exists lines : list string,
    length lines = 1%nat
    /\ lines !! 0%nat = Some "Vector[0] = ( 0.000000, 0.000000, 1.000000)"
    /\ BasicSiemensTool.save (platform_of PyStr.LF) (Tool (PyList [0; 1000]) 3 ∅)
         "Wed Jan 15 14:32:07 2025"
         [ [PyNum.PyInt 0; PyNum.PyInt 0; PyNum.PyInt 1];
           [PyNum.PyInt 1; PyNum.PyInt 0];
           [PyNum.PyInt 0; PyNum.PyInt 1; PyNum.PyInt 0] ]
         (FPath "MyVectorSet.dvs")
       = (Some (stored PyStr.LF
                  (terminated PyStr.LF
                     (BasicSiemensTool.construct_header (Tool (PyList [0; 1000]) 3 ∅)
                        "Wed Jan 15 14:32:07 2025" (FPath "MyVectorSet.dvs")
                        3 (PyTuple [0; 1000]) ++ lines))),
          Raise IndexError).
Proof.
  destruct (save_stops_at_rejected_row (platform_of PyStr.LF)
              (Tool (PyList [0; 1000]) 3 ∅)
              "Wed Jan 15 14:32:07 2025" "MyVectorSet.dvs"
              [ [PyNum.PyInt 0; PyNum.PyInt 0; PyNum.PyInt 1] ]
              [PyNum.PyInt 1; PyNum.PyInt 0]
              [ [PyNum.PyInt 0; PyNum.PyInt 1; PyNum.PyInt 0] ]
              IndexError eq_refl) as [lines [Hlen [Hrow [Hsave _]]]].
  - repeat constructor; do 4 eexists;
      (split; [reflexivity|]); repeat split.
  - vm_compute. reflexivity.
  - exists lines. split; [exact Hlen|]. split; [|exact Hsave].
    destruct (Hrow 0%nat _ eq_refl) as [s [Hs Hv]].
    rewrite Hs. f_equal.
    assert (E : Ok s = Ok "Vector[0] = ( 0.000000, 0.000000, 1.000000)")
      by (rewrite <- Hv; vm_compute; reflexivity).
    now injection E.
Defined.

(** ** Reading the index off a vector line *)

Section IndexFacts.

Import PyNum BasicSiemensTool.

Lemma str_int_chars (n : Z) : all_chars sign_or_digit (PyStr.str_int n) = true.
Proof.
  assert (Hu : forall u, all_chars sign_or_digit (NilEmpty.string_of_uint u) = true).
  { intros u. apply (all_chars_weaken is_digit), string_of_uint_digits.
    intros c Hc. unfold sign_or_digit. now rewrite Hc. }
  unfold PyStr.str_int. destruct n as [|p|p]; [reflexivity | apply Hu |].
  simpl. apply Hu.
Qed.

Lemma str_int_inj (i j : Z) : PyStr.str_int i = PyStr.str_int j -> i = j.
Proof.
  unfold PyStr.str_int. intros H. apply DecimalZ.to_int_inj.
  assert (E : Some (Z.to_int i) = Some (Z.to_int j))
    by (rewrite <- !NilEmpty.isi; now rewrite H).
  now injection E.
Qed.

(** Two texts cut at the first occurrence of a character they do not
    contain. *)
Lemma cut_at_first (c : ascii) (s t x y : string) :
  all_chars (fun a => negb (Ascii.eqb a c)) s = true ->
  all_chars (fun a => negb (Ascii.eqb a c)) t = true ->
  s +:+ String c x = t +:+ String c y -> s = t /\ x = y.
Proof.
  revert t. induction s as [|a s IH]; intros [|b t]; simpl;
    rewrite ?andb_true_iff.
  - intros _ _ [= ->]. now split.
  - intros _ [Hb _] [= <- _]. rewrite Ascii.eqb_refl in Hb. discriminate.
  - intros [Ha _] _ [= -> _]. rewrite Ascii.eqb_refl in Ha. discriminate.
  - intros [_ Hs] [_ Ht] [= -> H]. destruct (IH t Hs Ht H) as [-> ->].
    now split.
Qed.

Lemma vector_to_string_label (index : Z) (vector : list number)
    (decimals : Z) (s : string) :
  vector_to_string index vector decimals = Ok s ->
  exists r, s = "Vector[" +:+ PyStr.str_int index +:+ String "]"%char r.
Proof.
  unfold vector_to_string, getitem.
  destruct vector as [|a [|b [|c rest]]];
    cbn [lookup list_lookup mbind result_bind]; try discriminate.
  - destruct (format_f a decimals); discriminate.
  - destruct (format_f a decimals); [|discriminate].
    destruct (format_f b decimals); discriminate.
  - destruct (format_f a decimals) as [s0|]; [|discriminate].
    destruct (format_f b decimals) as [s1|]; [|discriminate].
    destruct (format_f c decimals) as [s2|]; [|discriminate].
    intros [= <-]. eexists. reflexivity.
Qed.

End IndexFacts.

(** X9.  The index can be read off a vector line: when two calls of
    [vector_to_string] return the same text, their indices are equal,
    whatever the vectors and precisions.  The lines [write] puts into one
    file carry the indices [0], [1], ... and are therefore pairwise
    different. *)
Theorem vector_line_determines_index
    (i j : Z) (v w : list PyNum.number) (d d' : Z) (s : string) :
  BasicSiemensTool.vector_to_string i v d = Ok s ->
  BasicSiemensTool.vector_to_string j w d' = Ok s ->
  i = j.
Proof.
  intros Hi Hj.
  destruct (vector_to_string_label _ _ _ _ Hi) as [r ->].
  destruct (vector_to_string_label _ _ _ _ Hj) as [r' H].
  injection H as H.
  apply str_int_inj.
  assert (Hc : forall n, all_chars (fun a => negb (Ascii.eqb a "]"%char))
                           (PyStr.str_int n) = true).
  { intros n. apply (all_chars_weaken sign_or_digit), str_int_chars.
    intros c Hc. destruct (Ascii.eqb_spec c "]"%char) as [->|]; [|reflexivity].
    discriminate Hc. }
  now destruct (cut_at_first "]"%char _ _ _ _ (Hc i) (Hc j) H).
Qed.

Lemma vector_line_determines_index_witness :
  BasicSiemensTool.vector_to_string 0
    [PyNum.PyInt 0; PyNum.PyInt 0; PyNum.PyInt 0] 6
  = Ok "Vector[0] = ( 0.000000, 0.000000, 0.000000)"
  /\ BasicSiemensTool.vector_to_string 1
       [PyNum.PyInt 0; PyNum.PyInt 0; PyNum.PyInt 0] 6
     <> Ok "Vector[0] = ( 0.000000, 0.000000, 0.000000)".
Proof.
  assert (H0 : BasicSiemensTool.vector_to_string 0
                 [PyNum.PyInt 0; PyNum.PyInt 0; PyNum.PyInt 0] 6
               = Ok "Vector[0] = ( 0.000000, 0.000000, 0.000000)")
    by (vm_compute; reflexivity).
  split; [exact H0|].
  intros H1.
  pose proof (vector_line_determines_index 0 1 _ _ 6 6 _ H0 H1) as E.
  discriminate E.
Defined.

(** ** Reading a saved file back *)

Section SplitFacts.

Import PyNum BasicSiemensTool.

Lemma split_at_piece (c : ascii) (s rest cur : string) :
  all_chars (fun a => negb (Ascii.eqb a c)) s = true ->
  split_at c (s +:+ String c rest) cur
  = (cur +:+ s) :: split_at c rest EmptyString.
Proof.
  revert cur. induction s as [|x s IH]; intros cur; simpl.
  - intros _. now rewrite Ascii.eqb_refl, append_empty_r.
  - rewrite andb_true_iff. intros [Hx Hs].
    apply negb_true_iff in Hx. rewrite Hx, (IH _ Hs), append_assoc.
    reflexivity.
Qed.

(** Lines that hold no line feed, written with a terminator that ends in
    the only line feed it has, come back when the text is split. *)
Lemma split_at_terminated (t : string) (lines : list string) :
  lf_free t = true ->
  Forall (fun line => lf_free line = true) lines ->
  split_at (ascii_of_nat 10) (terminated (t +:+ PyStr.LF) lines) EmptyString
  = map (fun line => line +:+ t) lines ++ [EmptyString].
Proof.
  intros Ht. induction 1 as [|line lines Hline _ IH]; [reflexivity|].
  cbn [terminated map app].
  replace ((line +:+ t +:+ PyStr.LF) +:+ terminated (t +:+ PyStr.LF) lines)
    with ((line +:+ t) +:+
          String (ascii_of_nat 10) (terminated (t +:+ PyStr.LF) lines))
    by (unfold PyStr.LF; now rewrite !append_assoc).
  rewrite split_at_piece, IH; [reflexivity|].
  unfold lf_free in *. fold not_lf. now rewrite all_chars_app, Hline, Ht.
Qed.

Lemma sign_or_digit_not_lf (c : ascii) : sign_or_digit c = true -> not_lf c = true.
Proof.
  unfold not_lf. destruct (Ascii.eqb_spec c (ascii_of_nat 10)) as [->|];
    [discriminate | reflexivity].
Qed.

Lemma str_int_lf_free (n : Z) : lf_free (PyStr.str_int n) = true.
Proof.
  apply (all_chars_weaken sign_or_digit), str_int_chars.
  apply sign_or_digit_not_lf.
Qed.

Lemma format_f_lf_free (x : number) (decimals : Z) (s : string) :
  format_f x decimals = Ok s -> lf_free s = true.
Proof.
  unfold format_f.
  destruct ((decimals <? 0) || (ssize_max <? decimals)); [discriminate|].
  destruct (as_float x) as [f|]; [|discriminate].
  cbn [mbind result_bind]. destruct (int_max <? decimals); [discriminate|].
  intros [= <-].
  assert (Hfixed : forall sg q d, lf_free (fixed_point sg q d) = true).
  { intros sg q d. unfold fixed_point, lf_free. cbn [all_chars].
    rewrite all_chars_app. fold (lf_free (PyStr.str_int (q / 10 ^ Z.of_nat d))).
    rewrite str_int_lf_free.
    replace (not_lf (sign_char sg)) with true by now destruct sg.
    destruct d as [|d]; [reflexivity|]. cbn [all_chars andb].
    replace (not_lf "."%char) with true by reflexivity.
    apply (all_chars_weaken is_digit), frac_digits_digits.
    intros c Hc. apply sign_or_digit_not_lf. unfold sign_or_digit.
    now rewrite Hc. }
  destruct f as [sg|sg| |sg m e]; cbn [format_float]; try apply Hfixed.
  - now destruct sg.
  - reflexivity.
Qed.

Lemma vector_to_string_lf_free (index : Z) (vector : list number)
    (decimals : Z) (s : string) :
  vector_to_string index vector decimals = Ok s -> lf_free s = true.
Proof.
  unfold vector_to_string, getitem.
  destruct vector as [|a [|b [|c rest]]];
    cbn [lookup list_lookup mbind result_bind]; try discriminate.
  - destruct (format_f a decimals); discriminate.
  - destruct (format_f a decimals); [|discriminate].
    destruct (format_f b decimals); discriminate.
  - destruct (format_f a decimals) as [s0|] eqn:Ea; [|discriminate].
    destruct (format_f b decimals) as [s1|] eqn:Eb; [|discriminate].
    destruct (format_f c decimals) as [s2|] eqn:Ec; [|discriminate].
    intros [= <-].
    pose proof (str_int_lf_free index) as Hi.
    pose proof (format_f_lf_free _ _ _ Ea) as H0.
    pose proof (format_f_lf_free _ _ _ Eb) as H1.
    pose proof (format_f_lf_free _ _ _ Ec) as H2.
    unfold lf_free in *.
    repeat (cbn [all_chars]; rewrite all_chars_app).
    cbn [all_chars]. rewrite Hi, H0, H1, H2. reflexivity.
Qed.

Lemma rendered_rows_lf_free (rows : list (list number)) (index : Z) :
  Forall (fun line => lf_free line = true) (rendered_rows index rows).
Proof.
  revert index. induction rows as [|row rows IH]; intros index; simpl;
    [constructor|].
  destruct (vector_to_string index row default_decimals) as [s|] eqn:E;
    [|constructor].
  constructor; [now apply (vector_to_string_lf_free _ _ _ _ E) | apply IH].
Qed.

Lemma components_chars (P : ascii -> bool) (s : string) :
  all_chars P s = true ->
  forall cur, all_chars P cur = true ->
  Forall (fun piece => all_chars P piece = true) (PyPath.components s cur).
Proof.
  induction s as [|x s IH]; simpl; intros Hs cur Hcur.
  - now repeat constructor.
  - apply andb_true_iff in Hs as [Hx Hs].
    destruct (Ascii.eqb x "/"%char).
    + constructor; [exact Hcur | now apply IH].
    + apply IH; [exact Hs|]. now rewrite all_chars_app, Hcur, (andb_true_l _); simpl; rewrite Hx.
Qed.

Lemma name_chars (P : ascii -> bool) (s : string) :
  all_chars P s = true -> all_chars P (PyPath.name s) = true.
Proof.
  intros Hs. unfold PyPath.name.
  pose proof (components_chars P s Hs EmptyString eq_refl) as H.
  induction H as [|piece l Hp _ IH]; [reflexivity|].
  cbn [List.filter]. destruct (PyPath.kept piece); [|exact IH].
  cbn [List.last]. destruct (List.filter PyPath.kept l); [exact Hp | exact IH].
Qed.

End SplitFacts.

Section HeaderLineFacts.

Import BasicSiemensTool.

Lemma lf_free_app (s t : string) :
  lf_free s = true -> lf_free t = true -> lf_free (s +:+ t) = true.
Proof. unfold lf_free. intros Hs Ht. now rewrite all_chars_app, Hs, Ht. Qed.

Lemma dict_get_lf_free (opts : gmap string string) (key dflt : string) :
  (forall value, opts !! key = Some value -> lf_free value = true) ->
  lf_free dflt = true ->
  lf_free (dict_get opts key dflt) = true.
Proof.
  unfold dict_get. intros H Hd.
  destruct (opts !! key) as [value|]; [now apply H | exact Hd].
Qed.

Lemma join_lf_free (l : list Z) :
  lf_free (PyStr.join ", " (map PyStr.str_int l)) = true.
Proof.
  induction l as [|x l IH]; [reflexivity|].
  cbn [map PyStr.join]. destruct (map PyStr.str_int l) as [|y l'] eqn:E.
  - apply str_int_lf_free.
  - apply lf_free_app; [apply str_int_lf_free|].
    apply lf_free_app; [reflexivity | exact IH].
Qed.

Lemma str_seq_lf_free (b : pyseq) : lf_free (str_seq b) = true.
Proof.
  destruct b as [l|l]; unfold str_seq.
  - apply (lf_free_app "["), lf_free_app;
      [reflexivity | apply join_lf_free | reflexivity].
  - destruct l as [|x [|y l]].
    + reflexivity.
    + apply (lf_free_app "("), lf_free_app;
        [reflexivity | apply str_int_lf_free | reflexivity].
    + apply (lf_free_app "("), lf_free_app;
        [reflexivity | apply join_lf_free | reflexivity].
Qed.

Variables (self : tool) (current_time : string) (filename : pyfile).
Variables (n_dims : Z) (b_values : pyseq).

Hypothesis options_lf_free :
  Forall (fun key => forall value,
            options self !! key = Some value -> lf_free value = true)
    header_options.
Hypothesis time_lf_free : lf_free current_time = true.
Hypothesis name_lf_free : lf_free (file_name filename) = true.

Lemma header_top_lf_free :
  Forall (fun line => lf_free line = true)
    (header_top self current_time filename n_dims b_values).
Proof.
  pose proof options_lf_free as H. unfold header_options in H.
  repeat match type of H with
         | Forall _ (_ :: _) =>
             let E := fresh "E" in
             apply Forall_cons in H as [E H]
         end.
  unfold header_top, comment_lines, directory.
  repeat (apply Forall_cons; split).
  - reflexivity.
  - apply (lf_free_app "# File: "), lf_free_app;
      [reflexivity | now apply dict_get_lf_free | exact name_lf_free].
  - now apply (lf_free_app "# Date: ").
  - apply (lf_free_app "# Description: "); [reflexivity|].
    now apply dict_get_lf_free.
  - apply (lf_free_app "b-values: "); [reflexivity | apply str_seq_lf_free].
  - apply (lf_free_app "number dimensions: ");
      [reflexivity | apply str_int_lf_free].
  - apply Forall_app; split; [|now repeat constructor].
    destruct (options self !! "Comment") as [comment|] eqn:Ec; [|constructor].
    destruct (PyStr.truthy comment); repeat constructor.
    apply (lf_free_app "Comment: "); [reflexivity | now apply E1].
Qed.

Lemma header_bottom_lf_free :
  Forall (fun line => lf_free line = true) (header_bottom self).
Proof.
  pose proof options_lf_free as H. unfold header_options in H.
  repeat match type of H with
         | Forall _ (_ :: _) =>
             let E := fresh "E" in
             apply Forall_cons in H as [E H]
         end.
  unfold header_bottom. repeat (apply Forall_cons; split); [| |constructor].
  - apply (lf_free_app "CoordinateSystem = "); [reflexivity|].
    now apply dict_get_lf_free.
  - apply (lf_free_app "Normalisation = "); [reflexivity|].
    now apply dict_get_lf_free.
Qed.

Lemma header_lf_free :
  Forall (fun line => lf_free line = true)
    (construct_header self current_time filename n_dims b_values)
  /\ Forall (fun line => lf_free line = true)
       (LegacySiemensTool.strip_directions
          (construct_header self current_time filename n_dims b_values)).
Proof.
  rewrite strip_directions_header, construct_header_eq.
  split; (apply Forall_app; split; [apply header_top_lf_free|]);
    (constructor; [|apply header_bottom_lf_free]).
  - unfold marker. apply (lf_free_app "[directions="), lf_free_app;
      [reflexivity | apply str_int_lf_free | reflexivity].
  - apply lf_free_app; [apply str_int_lf_free | reflexivity].
Qed.

End HeaderLineFacts.

Lemma legacy_options_lookup (self : tool) (key : string) :
  options (LegacySiemensTool.set_options self) !! key
  = if decide (key = "default_path")
    then Some "C:\\Medcom\\MriCustomer\\seq\\"
    else if decide (key = "newline") then Some PyStr.CRLF
    else options self !! key.
Proof.
  simpl. rewrite lookup_insert.
  destruct (decide ("default_path" = key)) as [<-|Hd].
  - now rewrite decide_True.
  - rewrite decide_False by congruence. rewrite lookup_insert.
    destruct (decide ("newline" = key)) as [<-|Hn].
    + now rewrite decide_True.
    + now rewrite decide_False by congruence.
Qed.

Lemma legacy_options_lf_free (self : tool) :
  Forall (fun key => forall value,
            options self !! key = Some value -> lf_free value = true)
    header_options ->
  Forall (fun key => forall value,
            options (LegacySiemensTool.set_options self) !! key = Some value ->
            lf_free value = true)
    header_options.
Proof.
  unfold header_options. intros H.
  repeat match type of H with
         | Forall _ (_ :: _) =>
             let E := fresh "E" in
             apply Forall_cons in H as [E H]
         end.
  repeat (apply Forall_cons; split); [| | | | |constructor];
    intros value; rewrite legacy_options_lookup;
    repeat (case_decide; try discriminate); auto.
  now intros [= <-].
Qed.

(** X10.  Reading a saved file back.  When the values of the options the
    header reads, the time text and the file name hold no line feed, the text
    [save] writes to a path the platform opens, split at its line feeds, is
    the header lines and the vector lines in order, followed by one empty
    piece: no line is broken in two and none is lost.  That is so for the
    current variant with no ["newline"] option; for a legacy tool every
    piece but the last ends with the carriage return of its terminator.  The
    file holds that text as a text file stores it, with the line separator
    of the platform for every line feed, and the text itself where the
    separator is the line feed. *)
Theorem saved_file_splits_into_lines
    (os : platform) (self : tool) (current_time : string)
    (rows : list (list PyNum.number)) (p : string) :
  open_w os p = Ok tt ->
  Forall (fun key => forall value,
            options self !! key = Some value -> lf_free value = true)
    header_options ->
  lf_free current_time = true ->
  lf_free p = true ->
  exists lines : list string,
    (forall (i : nat) (s : string), lines !! i = Some s ->
       exists row, rows !! i = Some row
         /\ BasicSiemensTool.vector_to_string (Z.of_nat i) row 6 = Ok s)
    /\ (options self !! "newline" = None ->
        exists text : string,
          fst (BasicSiemensTool.save os self current_time rows (FPath p))
          = Some (stored (linesep os) text)
          /\ (linesep os = PyStr.LF ->
              fst (BasicSiemensTool.save os self current_time rows (FPath p))
              = Some text)
          /\ split_at (ascii_of_nat 10) text EmptyString
             = BasicSiemensTool.construct_header self current_time (FPath p)
                 3 (PyTuple [0; 1000]) ++ lines ++ [EmptyString])
    /\ (exists text : string,
          fst (LegacySiemensTool.save os (LegacySiemensTool.set_options self)
                 current_time rows (FPath p))
          = Some (stored (linesep os) text)
          /\ (linesep os = PyStr.LF ->
              fst (LegacySiemensTool.save os (LegacySiemensTool.set_options self)
                     current_time rows (FPath p))
              = Some text)
          /\ split_at (ascii_of_nat 10) text EmptyString
             = map (fun line => line +:+ String (ascii_of_nat 13) EmptyString)
                 (LegacySiemensTool.strip_directions
                    (BasicSiemensTool.construct_header
                       (LegacySiemensTool.set_options self)
                       current_time (FPath p) 3 (PyTuple [0; 1000])) ++ lines)
               ++ [EmptyString]).
Proof.
  intros Hopen Hopts Htime Hp. exists (rendered_rows 0 rows).
  assert (Hname : lf_free (file_name (FPath p)) = true)
    by (apply name_chars, Hp).
  split; [|split].
  - intros i s H. destruct (rendered_rows_lookup _ _ _ _ H) as [row Hrow].
    now exists row.
  - intros Hnl. eexists. unfold BasicSiemensTool.save.
    rewrite write_fst. cbn [opens]. rewrite Hopen.
    split; [reflexivity|].
    split; [intros ->; now rewrite stored_lf|].
    unfold BasicSiemensTool.newline, dict_get. rewrite Hnl. cbn [default].
    rewrite (split_at_terminated EmptyString) by
      first [ reflexivity
            | apply Forall_app; split;
              [ apply (header_lf_free self current_time (FPath p) 3
                         (PyTuple [0; 1000]) Hopts Htime Hname)
              | apply rendered_rows_lf_free ] ].
    assert (Hmap : forall l : list string,
               map (fun line => line +:+ EmptyString) l = l).
    { induction l as [|line l IH]; simpl; [reflexivity|].
      now rewrite append_empty_r, IH. }
    now rewrite Hmap, <- app_assoc.
  - eexists. unfold LegacySiemensTool.save.
    rewrite write_fst, legacy_newline. cbn [opens]. rewrite Hopen.
    split; [reflexivity|].
    split; [intros ->; now rewrite stored_lf|].
    apply (split_at_terminated (String (ascii_of_nat 13) EmptyString));
      [reflexivity|].
    apply Forall_app; split; [|apply rendered_rows_lf_free].
    apply (header_lf_free (LegacySiemensTool.set_options self) current_time
             (FPath p) 3 (PyTuple [0; 1000])
             (legacy_options_lf_free self Hopts) Htime Hname).
Qed.

Lemma saved_file_splits_into_lines_witness :
  exists text : string,
    fst (BasicSiemensTool.save (platform_of PyStr.LF) (Tool (PyList [0; 1000]) 3 ∅)
           "Wed Jan 15 14:32:07 2025"
           [[PyNum.PyInt 0; PyNum.PyInt 0; PyNum.PyInt 1]]
           (FPath "MyVectorSet.dvs")) = Some text
    /\ length (split_at (ascii_of_nat 10) text EmptyString) = 12%nat.
Proof.
  destruct (saved_file_splits_into_lines (platform_of PyStr.LF)
              (Tool (PyList [0; 1000]) 3 ∅)
              "Wed Jan 15 14:32:07 2025"
              [[PyNum.PyInt 0; PyNum.PyInt 0; PyNum.PyInt 1]]
              "MyVectorSet.dvs" eq_refl) as [lines [_ [H _]]].
  - repeat constructor; intros value; vm_compute; discriminate.
  - vm_compute. reflexivity.
  - vm_compute. reflexivity.
  - destruct (H ltac:(vm_compute; reflexivity)) as [text [_ [Htext Hsplit]]].
    specialize (Htext eq_refl).
    exists text. split; [exact Htext|].
    clear Hsplit H.
    vm_compute in Htext. injection Htext as <-. vm_compute. reflexivity.
Defined.

(** ** The file name in the header *)

Section NameFacts.

Lemma components_no_slash (s : string) :
  forall cur,
    all_chars (fun c => negb (Ascii.eqb c "/"%char)) cur = true ->
    Forall (fun piece => all_chars (fun c => negb (Ascii.eqb c "/"%char)) piece = true)
      (PyPath.components s cur).
Proof.
  induction s as [|x s IH]; simpl; intros cur Hcur.
  - now repeat constructor.
  - destruct (Ascii.eqb x "/"%char) eqn:E.
    + constructor; [exact Hcur | now apply IH].
    + apply IH. rewrite all_chars_app, Hcur. simpl. now rewrite E.
Qed.

Lemma name_no_slash (s : string) :
  all_chars (fun c => negb (Ascii.eqb c "/"%char)) (PyPath.name s) = true.
Proof.
  unfold PyPath.name.
  pose proof (components_no_slash s EmptyString eq_refl) as H.
  induction H as [|piece l Hp _ IH]; [reflexivity|].
  cbn [List.filter]. destruct (PyPath.kept piece); [|exact IH].
  cbn [List.last]. destruct (List.filter PyPath.kept l); [exact Hp | exact IH].
Qed.

End NameFacts.

(** X11.  [construct_header] takes a [str] and a [Path] alike, and of
    either it writes the last component only: the file-path line is
    [# File: ], the directory and a name that holds no slash, so nothing of
    the folders of the file name given gets into the header. *)
Theorem header_names_last_component
    (self : tool) (current_time : string) (s : string)
    (n_dims : Z) (b_values : pyseq) :
  BasicSiemensTool.construct_header self current_time (FStr s) n_dims b_values
  = BasicSiemensTool.construct_header self current_time (FPath s) n_dims b_values
  /\ exists name : string,
       BasicSiemensTool.construct_header self current_time (FPath s)
         n_dims b_values !! 1%nat
       = Some ("# File: " +:+ directory self +:+ name)
       /\ name = PyPath.name s
       /\ PyStr.contains "/" name = false.
Proof.
  split; [reflexivity|]. exists (PyPath.name s).
  split; [apply header_lookup_file_line|]. split; [reflexivity|].
  apply (contains_absent "/"%char EmptyString), name_no_slash.
Qed.

(** ** The draft's [write] *)

(** X12.  In the draft [simens_tool.py], [write] to a path the platform
    opens puts the header lines into the file, each with its terminator, and
    no vector line: with any row to write it ends with [NameError], and it
    returns normally for an empty list of rows only.  The file holds the
    lines as a text file stores them, with the line separator of the
    platform for every line feed. *)
Theorem draft_write_header_only
    (os : platform) (self : tool) (p : string) (header : list string)
    (rows : list (list PyNum.number)) :
  open_w os p = Ok tt ->
  fst (SimensToolDraft.write os self (FPath p) header rows)
  = Some (stored (linesep os) (terminated (BasicSiemensTool.newline self) header))
  /\ (snd (SimensToolDraft.write os self (FPath p) header rows) = Ok tt
      <-> rows = [])
  /\ (rows <> [] ->
      snd (SimensToolDraft.write os self (FPath p) header rows)
      = Raise NameError).
Proof.
  intros Hopen. unfold SimensToolDraft.write. rewrite Hopen, write_header_eq.
  destruct rows as [|row rows]; cbn [fst snd].
  - repeat split; congruence.
  - repeat split; try congruence; discriminate.
Qed.

Lemma draft_write_header_only_witness :
  fst (SimensToolDraft.write (platform_of PyStr.LF) (Tool (PyList [0; 1000]) 3 ∅)
         (FPath "MyVectorSet.dvs") ["a"; "b"]
         [[PyNum.PyInt 0; PyNum.PyInt 0; PyNum.PyInt 1]])
  = Some (stored PyStr.LF (terminated PyStr.LF ["a"; "b"]))
  /\ snd (SimensToolDraft.write (platform_of PyStr.LF) (Tool (PyList [0; 1000]) 3 ∅)
            (FPath "MyVectorSet.dvs") ["a"; "b"]
            [[PyNum.PyInt 0; PyNum.PyInt 0; PyNum.PyInt 1]])
     = Raise NameError.
Proof.
  destruct (draft_write_header_only (platform_of PyStr.LF)
              (Tool (PyList [0; 1000]) 3 ∅) "MyVectorSet.dvs" ["a"; "b"]
              [[PyNum.PyInt 0; PyNum.PyInt 0; PyNum.PyInt 1]] eq_refl)
    as [H1 [_ H3]].
  split; [exact H1 | apply H3; discriminate].
Defined.
